(** * The contact submission handler of app/api/contact/route.ts

    A shallow embedding of the [POST] route handler: the request body and the
    replies of the three downstream services (bot verification, chat webhook,
    confirmation email) are the inputs, the HTTP response and the ordered
    trace of effects are the outputs. *)

From Stdlib Require Import String List Bool ZArith SpecFloat Lia.
Import ListNotations.
Local Open Scope string_scope.

Set Implicit Arguments.
Set Warnings "-register-all".

(** ** JavaScript values

    What [JSON.parse] produces, plus [undefined] for an absent property.
    A number is an IEEE 754 double, an object is the ordered list of its
    own properties. *)

Inductive Value : Type :=
| VUndefined
| VNull
| VBool (b : bool)
| VNum (f : spec_float)
| VStr (s : string)
| VArr (items : list Value)
| VObj (props : list (string * Value)).

(** [!v] is true exactly for undefined, null, false, +0, -0, NaN and the
    empty string. *)
Definition truthy (v : Value) : bool :=
  match v with
  | VUndefined | VNull => false
  | VBool b => b
  | VNum (S754_zero _) | VNum S754_nan => false
  | VNum (S754_infinity _) | VNum (S754_finite _ _ _) => true
  | VStr s => negb (String.eqb s "")
  | VArr _ | VObj _ => true
  end.

(** A thrown value: the message (or trace) of the exception. *)
Definition exn := string.

(** The string conversion of a template literal throws a TypeError exactly
    when it meets an object with an own property named toString: that
    property, which parsed JSON never makes callable, hides
    [Object.prototype.toString], and [valueOf] gives back the object.  An
    array converts each of its elements. *)
Fixpoint to_string_throws (v : Value) : bool :=
  match v with
  | VArr items => existsb to_string_throws items
  | VObj props => existsb (fun kv => String.eqb (fst kv) "toString") props
  | VUndefined | VNull | VBool _ | VNum _ | VStr _ => false
  end.

Fixpoint own_property (props : list (string * Value)) (key : string) : Value :=
  match props with
  | [] => VUndefined
  | (k, v) :: rest => if String.eqb k key then v else own_property rest key
  end.

(** Property read [v.key] (also what destructuring does for each name).
    Reading from null or undefined throws a TypeError.  None of the keys the
    handler reads is defined on the prototypes of booleans, numbers, strings
    or arrays, so on those the read gives undefined. *)
Definition get_prop (v : Value) (key : string) : exn + Value :=
  match v with
  | VUndefined | VNull => inl ("TypeError: cannot read property " ++ key)
  | VObj props => inr (own_property props key)
  | VBool _ | VNum _ | VStr _ | VArr _ => inr VUndefined
  end.

(** ** Effects

    The handler runs in a writer-and-error monad: a computation yields a
    value or a thrown exception, together with the effects it performed, in
    order. *)

Record FieldRecord : Type := mkField {
  field_name : string;
  field_value : Value;
  field_inline : bool
}.

Record Embed : Type := mkEmbed {
  embed_title : string;
  embed_color : Z;
  embed_fields : list FieldRecord;
  embed_timestamp : string;
  embed_footer_text : string
}.

Record DiscordPayload : Type := mkDiscordPayload {
  embeds : list Embed
}.

(** The object handed to [JSON.stringify] as the body of a [fetch]. *)
Inductive FetchBody : Type :=
| VerifyBody (secret : option string) (response : Value)
| WebhookBody (payload : DiscordPayload).

Record FetchInit : Type := mkFetchInit {
  init_method : string;
  init_headers : list (string * string);
  init_body : FetchBody
}.

(** The confirmation email.  The HTML is a fixed template; [mail_html] keeps
    the values interpolated into it, in order of appearance (the phone
    paragraph is present only for a truthy phone). *)
Record EmailHtml : Type := mkEmailHtml {
  html_greeting_name : Value;
  html_company : Value;
  html_name : Value;
  html_email : Value;
  html_phone : option Value;
  html_message : Value
}.

Record Email : Type := mkEmail {
  mail_from : string;
  mail_to : Value;
  mail_subject : string;
  mail_html : EmailHtml
}.

Inductive LogDetail : Type :=
| LogNothing
| LogValue (v : Value)
| LogText (s : string)
| LogExn (e : exn).

Inductive Event : Type :=
| EvFetch (url : string) (init : FetchInit)
| EvEmailSend (mail : Email)
| EvConsoleError (label : string) (detail : LogDetail).

Definition M (A : Type) : Type := (exn + A) * list Event.

Definition ret {A} (a : A) : M A := (inr a, []).

Definition bind {A B} (c : M A) (k : A -> M B) : M B :=
  match c with
  | (inl e, tr) => (inl e, tr)
  | (inr a, tr) => let (r, tr') := k a in (r, (tr ++ tr')%list)
  end.

(** [try { c } catch (e) { h e }] *)
Definition try_catch {A} (c : M A) (h : exn -> M A) : M A :=
  match c with
  | (inl e, tr) => let (r, tr') := h e in (r, (tr ++ tr')%list)
  | (inr a, tr) => (inr a, tr)
  end.

Definition emit (e : Event) : M unit := (inr tt, [e]).

Definition lift {A} (r : exn + A) : M A := (r, []).

Notation "x <- c ;; k" := (bind c (fun x => k))
  (at level 61, c at next level, right associativity).
Notation "c ;;; k" := (bind c (fun _ => k))
  (at level 61, right associativity).

(** ** The world outside the handler *)

Record Response : Type := mkResponse {
  resp_status : Z;
  resp_json : exn + Value;     (* await response.json() *)
  resp_text : exn + string     (* await response.text() *)
}.

(** [response.ok]: the status is in the range 200-299. *)
Definition resp_ok (r : Response) : bool :=
  ((200 <=? resp_status r) && (resp_status r <=? 299))%Z.

Record Env : Type := mkEnv {
  RESEND_API_KEY : option string;
  CF_SECRET_KEY : option string;
  WEBHOOK_URL : option string
}.

(** What the handler finds around it.  The [resend] client is created once,
    when the module is loaded; the handler only calls its [emails.send]. *)
Record World : Type := mkWorld {
  process_env : Env;
  (* fetch either rejects (network failure) or resolves to a response *)
  net_fetch : string -> FetchInit -> exn + Response;
  (* resend.emails.send; the resolved value is discarded by the handler *)
  resend_emails_send : Email -> exn + unit;
  (* new Date().toISOString() *)
  now_iso : string
}.

Record NextRequest : Type := mkRequest {
  request_json : exn + Value   (* await request.json() *)
}.

Record NextResponse : Type := mkNextResponse {
  message : string;
  status : Z
}.

Definition NextResponse_json (msg : string) (st : Z) : NextResponse :=
  mkNextResponse msg st.

Definition fetch (w : World) (url : string) (init : FetchInit) : M Response :=
  emit (EvFetch url init) ;;; lift (net_fetch w url init).

Definition emails_send (w : World) (mail : Email) : M unit :=
  emit (EvEmailSend mail) ;;; lift (resend_emails_send w mail).

Definition console_error (label : string) (detail : LogDetail) : M unit :=
  emit (EvConsoleError label detail).

(** [!webhookUrl] for an environment variable: unset or empty. *)
Definition env_truthy (v : option string) : bool :=
  match v with
  | None => false
  | Some s => negb (String.eqb s "")
  end.

(** The string a set environment variable holds. *)
Definition env_string (v : option string) : string :=
  match v with
  | Some s => s
  | None => "undefined"
  end.

(** ** The handler *)

Definition turnstileVerifyUrl : string :=
  "https://challenges.cloudflare.com/turnstile/v0/siteverify".

Definition json_headers : list (string * string) :=
  [("Content-Type", "application/json")].

Definition msg_required : string := "必須項目をすべて入力してください".
Definition msg_bot_failed : string :=
  "ボット検証に失敗しました。もう一度お試しください。".
Definition msg_server_error : string := "サーバーエラーが発生しました".
Definition msg_send_failed : string :=
  "送信に失敗しました。もう一度お試しください。".
Definition msg_done : string := "送信が完了しました".

Definition discordFields (company name email phone message : Value)
  : list FieldRecord :=
  ([ mkField "会社名" company true;
     mkField "氏名" name true;
     mkField "メールアドレス" email false ]
   ++ (if truthy phone then [mkField "電話番号" phone false] else [])
   ++ [ mkField "お問い合わせ内容" message false ])%list.

Definition discordPayload (company name email phone message : Value)
    (timestamp : string) : DiscordPayload :=
  mkDiscordPayload
    [ mkEmbed "📧 新しいお問い合わせ" 0x0066cc
        (discordFields company name email phone message)
        timestamp
        "株式会社ファンエクス" ].

(** The values the HTML template converts to strings, in order. *)
Definition interpolated (company name email phone message : Value)
  : list Value :=
  ([name; company; name; email]
   ++ (if truthy phone then [phone] else [])
   ++ [message])%list.

(** The argument of [resend.emails.send].  Evaluating the template literal
    throws when one of its values cannot be converted. *)
Definition confirmationEmail (company name email phone message : Value)
  : exn + Email :=
  if existsb to_string_throws (interpolated company name email phone message)
  then inl "TypeError: Cannot convert object to primitive value"
  else
    inr (mkEmail "株式会社ファンエクス <noreply@funex.co.jp>"
           email
           "お問い合わせを受け付けました - 株式会社ファンエクス"
           (mkEmailHtml name company name email
              (if truthy phone then Some phone else None)
              message)).

Definition verify_init (secret : option string) (token : Value) : FetchInit :=
  mkFetchInit "POST" json_headers (VerifyBody secret token).

Definition webhook_init (payload : DiscordPayload) : FetchInit :=
  mkFetchInit "POST" json_headers (WebhookBody payload).

Definition POST (w : World) (request : NextRequest) : M NextResponse :=
  try_catch
    (body <- lift (request_json request) ;;
     company <- lift (get_prop body "company") ;;
     name <- lift (get_prop body "name") ;;
     email <- lift (get_prop body "email") ;;
     phone <- lift (get_prop body "phone") ;;
     message <- lift (get_prop body "message") ;;
     privacyPolicy <- lift (get_prop body "privacyPolicy") ;;
     turnstileToken <- lift (get_prop body "turnstileToken") ;;
     if negb (truthy company) || negb (truthy name) || negb (truthy email)
        || negb (truthy message) || negb (truthy privacyPolicy)
        || negb (truthy turnstileToken)
     then ret (NextResponse_json msg_required 400)
     else
       turnstileResponse <-
         fetch w turnstileVerifyUrl
           (verify_init (CF_SECRET_KEY (process_env w)) turnstileToken) ;;
       turnstileData <- lift (resp_json turnstileResponse) ;;
       success <- lift (get_prop turnstileData "success") ;;
       if negb (truthy success)
       then
         codes <- lift (get_prop turnstileData "error-codes") ;;
         console_error "Turnstile verification failed:" (LogValue codes) ;;;
         ret (NextResponse_json msg_bot_failed 400)
       else
         let webhookUrl := WEBHOOK_URL (process_env w) in
         if negb (env_truthy webhookUrl)
         then
           console_error "WEBHOOK_URL is not configured" LogNothing ;;;
           ret (NextResponse_json msg_server_error 500)
         else
           webhookResponse <-
             fetch w (env_string webhookUrl)
               (webhook_init
                  (discordPayload company name email phone message
                     (now_iso w))) ;;
           if negb (resp_ok webhookResponse)
           then
             txt <- lift (resp_text webhookResponse) ;;
             console_error "Discord webhook failed:" (LogText txt) ;;;
             ret (NextResponse_json msg_send_failed 500)
           else
             try_catch
               (mail <-
                  lift (confirmationEmail company name email phone message) ;;
                emails_send w mail)
               (fun emailError =>
                  console_error "Email sending failed:" (LogExn emailError)) ;;;
             ret (NextResponse_json msg_done 200))
    (fun error =>
       console_error "Contact form error:" (LogExn error) ;;;
       ret (NextResponse_json msg_server_error 500)).

(** The response the caller receives and the effects performed. *)
Definition response_of (w : World) (request : NextRequest) : exn + NextResponse :=
  fst (POST w request).

Definition trace_of (w : World) (request : NextRequest) : list Event :=
  snd (POST w request).

Definition is_outbound_call (e : Event) : bool :=
  match e with
  | EvFetch _ _ | EvEmailSend _ => true
  | EvConsoleError _ _ => false
  end.

Definition outbound_calls (tr : list Event) : list Event :=
  filter is_outbound_call tr.

(** ** Vocabulary of the properties *)

(** The value bound to a destructured name ([undefined] when absent). *)
Definition field (body : Value) (key : string) : Value :=
  match get_prop body key with
  | inr v => v
  | inl _ => VUndefined
  end.

Definition required_keys : list string :=
  ["company"; "name"; "email"; "message"; "privacyPolicy"; "turnstileToken"].

(** Every required field is present and truthy. *)
Definition passes_validation (body : Value) : bool :=
  forallb (fun key => truthy (field body key)) required_keys.

(** What the verification service answers to this submission. *)
Definition verification_reply (w : World) (body : Value) : exn + Response :=
  net_fetch w turnstileVerifyUrl
    (verify_init (CF_SECRET_KEY (process_env w)) (field body "turnstileToken")).

(** The parsed verification body has a truthy [success] field. *)
Definition reports_success (turnstileData : Value) : bool :=
  match get_prop turnstileData "success" with
  | inr success => truthy success
  | inl _ => false
  end.

Definition verified (w : World) (body : Value) : bool :=
  match verification_reply w body with
  | inr turnstileResponse =>
      match resp_json turnstileResponse with
      | inr turnstileData => reports_success turnstileData
      | inl _ => false
      end
  | inl _ => false
  end.

Definition webhook_configured (w : World) : bool :=
  env_truthy (WEBHOOK_URL (process_env w)).

Definition submission_payload (w : World) (body : Value) : DiscordPayload :=
  discordPayload (field body "company") (field body "name")
    (field body "email") (field body "phone") (field body "message")
    (now_iso w).

(** What the webhook endpoint answers to the notification. *)
Definition webhook_reply (w : World) (body : Value) : exn + Response :=
  net_fetch w (env_string (WEBHOOK_URL (process_env w)))
    (webhook_init (submission_payload w body)).

Definition webhook_delivered (w : World) (body : Value) : bool :=
  webhook_configured w &&
  match webhook_reply w body with
  | inr webhookResponse => resp_ok webhookResponse
  | inl _ => false
  end.

Definition submission_email (body : Value) : exn + Email :=
  confirmationEmail (field body "company") (field body "name")
    (field body "email") (field body "phone") (field body "message").

(** What the attempt to send the confirmation email comes to: the value
    of the inner [try] block. *)
Definition email_attempt (w : World) (body : Value) : exn + unit :=
  match submission_email body with
  | inl e => inl e
  | inr mail => resend_emails_send w mail
  end.

Definition is_email_send (e : Event) : bool :=
  match e with EvEmailSend _ => true | _ => false end.

Definition is_webhook_call (e : Event) : bool :=
  match e with
  | EvFetch _ init =>
      match init_body init with WebhookBody _ => true | VerifyBody _ _ => false end
  | _ => false
  end.

Definition server_error_500 : NextResponse := NextResponse_json msg_server_error 500.
Definition required_400 : NextResponse := NextResponse_json msg_required 400.
Definition bot_failed_400 : NextResponse := NextResponse_json msg_bot_failed 400.
Definition send_failed_500 : NextResponse := NextResponse_json msg_send_failed 500.
Definition done_200 : NextResponse := NextResponse_json msg_done 200.

Definition caught (error : exn) : Event :=
  EvConsoleError "Contact form error:" (LogExn error).

Definition verification_call (w : World) (body : Value) : Event :=
  EvFetch turnstileVerifyUrl
    (verify_init (CF_SECRET_KEY (process_env w)) (field body "turnstileToken")).

Definition webhook_call (w : World) (body : Value) : Event :=
  EvFetch (env_string (WEBHOOK_URL (process_env w)))
    (webhook_init (submission_payload w body)).

(** The same world with another email service. *)
Definition with_email_service (w : World) (send : Email -> exn + unit) : World :=
  mkWorld (process_env w) (net_fetch w) send (now_iso w).

(** How the verification stage ends. *)
Inductive VerificationOutcome : Type :=
| Accepted      (* the parsed body has a truthy success field *)
| Rejected      (* the parsed body has a falsy or absent success field *)
| Unreachable   (* fetch rejected: the service could not be reached *)
| Malformed.    (* the reply is not JSON, or is JSON null *)

Definition verification_outcome (w : World) (body : Value)
  : VerificationOutcome :=
  match verification_reply w body with
  | inl _ => Unreachable
  | inr turnstileResponse =>
      match resp_json turnstileResponse with
      | inl _ => Malformed
      | inr turnstileData =>
          match get_prop turnstileData "success" with
          | inl _ => Malformed
          | inr success => if truthy success then Accepted else Rejected
          end
      end
  end.

(** The field lists of the webhook payloads sent during a run. *)
Definition webhook_fields (tr : list Event) : list (list FieldRecord) :=
  flat_map
    (fun ev =>
       match ev with
       | EvFetch _ init =>
           match init_body init with
           | WebhookBody payload => map embed_fields (embeds payload)
           | VerifyBody _ _ => []
           end
       | _ => []
       end)
    tr.

Definition is_phone_field (f : FieldRecord) : bool :=
  String.eqb (field_name f) "電話番号".

(** Two outcomes agree when both throw, whatever is thrown, or both return
    related values. *)
Definition agree {A} (R : A -> A -> Prop) (x y : exn + A) : Prop :=
  match x, y with
  | inl _, inl _ => True
  | inr a, inr b => R a b
  | _, _ => False
  end.

(** Verification replies with the same [success] field; status, error
    codes and every other member are free. *)
Definition same_verdict (r1 r2 : Response) : Prop :=
  agree (fun d1 d2 => agree eq (get_prop d1 "success") (get_prop d2 "success"))
    (resp_json r1) (resp_json r2).

(** Webhook replies with the same status; the response body is free. *)
Definition same_delivery (r1 r2 : Response) : Prop :=
  resp_status r1 = resp_status r2
  /\ agree (fun _ _ => True) (resp_text r1) (resp_text r2).

(** The two runs get the same request, and the verification service and
    the webhook behave alike up to diagnostic detail; the secrets in
    [process_env] and the email service are free. *)
Definition differ_only_in_secrets_and_diagnostics (w1 w2 : World)
    (request : NextRequest) : Prop :=
  forall body,
    request_json request = inr body ->
    agree same_verdict (verification_reply w1 body) (verification_reply w2 body)
    /\ agree same_delivery (webhook_reply w1 body) (webhook_reply w2 body).

Definition fixed_messages : list string :=
  [ "必須項目をすべて入力してください";
    "ボット検証に失敗しました。もう一度お試しください。";
    "サーバーエラーが発生しました";
    "送信に失敗しました。もう一度お試しください。";
    "送信が完了しました" ].

Definition is_notification_event (e : Event) : bool :=
  match e with
  | EvConsoleError label _ => String.eqb label "WEBHOOK_URL is not configured"
  | EvFetch _ init =>
      match init_body init with
      | WebhookBody _ => true
      | VerifyBody _ _ => false
      end
  | EvEmailSend _ => false
  end.

(** The run went past the verification stage (lines 60 and on). *)
Definition reached_notification (tr : list Event) : bool :=
  existsb is_notification_event tr.

Definition set_status (st : Z) (r : Response) : Response :=
  mkResponse st (resp_json r) (resp_text r).

(** The same world, the verification service answering with status [st]. *)
Definition with_verification_status (w : World) (st : Z) : World :=
  mkWorld (process_env w)
    (fun url init =>
       match init_body init with
       | VerifyBody _ _ =>
           match net_fetch w url init with
           | inl e => inl e
           | inr r => inr (set_status st r)
           end
       | WebhookBody _ => net_fetch w url init
       end)
    (resend_emails_send w)
    (now_iso w).

(** ** Every run follows one of the paths *)

Inductive Path (w : World) (request : NextRequest) : M NextResponse -> Prop :=
| PathParseThrows e :
    request_json request = inl e ->
    Path w request (inr server_error_500, [caught e])
| PathUnreadableBody body e :
    request_json request = inr body ->
    get_prop body "company" = inl e ->
    Path w request (inr server_error_500, [caught e])
| PathFailsValidation body :
    request_json request = inr body ->
    (forall key, get_prop body key = inr (field body key)) ->
    passes_validation body = false ->
    Path w request (inr required_400, [])
| PathVerificationUnreachable body e :
    request_json request = inr body ->
    passes_validation body = true ->
    verification_reply w body = inl e ->
    Path w request (inr server_error_500, [verification_call w body; caught e])
| PathVerificationUnparseable body turnstileResponse e :
    request_json request = inr body ->
    passes_validation body = true ->
    verification_reply w body = inr turnstileResponse ->
    resp_json turnstileResponse = inl e ->
    Path w request (inr server_error_500, [verification_call w body; caught e])
| PathVerificationNoObject body turnstileResponse turnstileData e :
    request_json request = inr body ->
    passes_validation body = true ->
    verification_reply w body = inr turnstileResponse ->
    resp_json turnstileResponse = inr turnstileData ->
    get_prop turnstileData "success" = inl e ->
    Path w request (inr server_error_500, [verification_call w body; caught e])
| PathVerificationRejected body turnstileResponse turnstileData success :
    request_json request = inr body ->
    passes_validation body = true ->
    verification_reply w body = inr turnstileResponse ->
    resp_json turnstileResponse = inr turnstileData ->
    get_prop turnstileData "success" = inr success ->
    truthy success = false ->
    Path w request
      (inr bot_failed_400,
       [verification_call w body;
        EvConsoleError "Turnstile verification failed:"
          (LogValue (field turnstileData "error-codes"))])
| PathWebhookUnconfigured body turnstileResponse turnstileData :
    request_json request = inr body ->
    passes_validation body = true ->
    verification_reply w body = inr turnstileResponse ->
    resp_json turnstileResponse = inr turnstileData ->
    reports_success turnstileData = true ->
    webhook_configured w = false ->
    Path w request
      (inr server_error_500,
       [verification_call w body;
        EvConsoleError "WEBHOOK_URL is not configured" LogNothing])
| PathWebhookUnreachable body turnstileResponse turnstileData e :
    request_json request = inr body ->
    passes_validation body = true ->
    verification_reply w body = inr turnstileResponse ->
    resp_json turnstileResponse = inr turnstileData ->
    reports_success turnstileData = true ->
    webhook_configured w = true ->
    webhook_reply w body = inl e ->
    Path w request
      (inr server_error_500,
       [verification_call w body; webhook_call w body; caught e])
| PathWebhookRefusedUnreadable body turnstileResponse turnstileData
    webhookResponse e :
    request_json request = inr body ->
    passes_validation body = true ->
    verification_reply w body = inr turnstileResponse ->
    resp_json turnstileResponse = inr turnstileData ->
    reports_success turnstileData = true ->
    webhook_configured w = true ->
    webhook_reply w body = inr webhookResponse ->
    resp_ok webhookResponse = false ->
    resp_text webhookResponse = inl e ->
    Path w request
      (inr server_error_500,
       [verification_call w body; webhook_call w body; caught e])
| PathWebhookRefused body turnstileResponse turnstileData webhookResponse txt :
    request_json request = inr body ->
    passes_validation body = true ->
    verification_reply w body = inr turnstileResponse ->
    resp_json turnstileResponse = inr turnstileData ->
    reports_success turnstileData = true ->
    webhook_configured w = true ->
    webhook_reply w body = inr webhookResponse ->
    resp_ok webhookResponse = false ->
    resp_text webhookResponse = inr txt ->
    Path w request
      (inr send_failed_500,
       [verification_call w body; webhook_call w body;
        EvConsoleError "Discord webhook failed:" (LogText txt)])
| PathEmailNotBuilt body turnstileResponse turnstileData webhookResponse e :
    request_json request = inr body ->
    passes_validation body = true ->
    verification_reply w body = inr turnstileResponse ->
    resp_json turnstileResponse = inr turnstileData ->
    reports_success turnstileData = true ->
    webhook_configured w = true ->
    webhook_reply w body = inr webhookResponse ->
    resp_ok webhookResponse = true ->
    submission_email body = inl e ->
    Path w request
      (inr done_200,
       [verification_call w body; webhook_call w body;
        EvConsoleError "Email sending failed:" (LogExn e)])
| PathEmailThrows body turnstileResponse turnstileData webhookResponse mail e :
    request_json request = inr body ->
    passes_validation body = true ->
    verification_reply w body = inr turnstileResponse ->
    resp_json turnstileResponse = inr turnstileData ->
    reports_success turnstileData = true ->
    webhook_configured w = true ->
    webhook_reply w body = inr webhookResponse ->
    resp_ok webhookResponse = true ->
    submission_email body = inr mail ->
    resend_emails_send w mail = inl e ->
    Path w request
      (inr done_200,
       [verification_call w body; webhook_call w body;
        EvEmailSend mail;
        EvConsoleError "Email sending failed:" (LogExn e)])
| PathEmailSent body turnstileResponse turnstileData webhookResponse mail :
    request_json request = inr body ->
    passes_validation body = true ->
    verification_reply w body = inr turnstileResponse ->
    resp_json turnstileResponse = inr turnstileData ->
    reports_success turnstileData = true ->
    webhook_configured w = true ->
    webhook_reply w body = inr webhookResponse ->
    resp_ok webhookResponse = true ->
    submission_email body = inr mail ->
    resend_emails_send w mail = inr tt ->
    Path w request
      (inr done_200,
       [verification_call w body; webhook_call w body; EvEmailSend mail]).

(** ** Concrete worlds and submissions *)

Definition json_reply (st : Z) (data : Value) : Response :=
  mkResponse st (inr data) (inr "").

(** A world whose services answer the same way whatever they are sent. *)
Definition scripted_world (env : Env) (verification webhook : exn + Response)
    (mail : exn + unit) : World :=
  mkWorld env
    (fun _ init =>
       match init_body init with
       | VerifyBody _ _ => verification
       | WebhookBody _ => webhook
       end)
    (fun _ => mail)
    "2025-01-01T00:00:00.000Z".

Definition configured_env : Env :=
  mkEnv (Some "re_key") (Some "cf_secret")
    (Some "https://discord.example/api/webhooks/1").

Definition verification_ok : exn + Response :=
  inr (json_reply 200 (VObj [("success", VBool true)])).

Definition verification_rejects : exn + Response :=
  inr (json_reply 200
         (VObj [("success", VBool false);
                ("error-codes", VArr [VStr "invalid-input-response"])])).

Definition webhook_ok : exn + Response :=
  inr (mkResponse 204 (inl "SyntaxError") (inr "")).

Definition all_ok_world : World :=
  scripted_world configured_env verification_ok webhook_ok (inr tt).

Definition acme_body : Value :=
  VObj [("company", VStr "Acme");
        ("name", VStr "田中太郎");
        ("email", VStr "t@example.com");
        ("message", VStr "お見積りをお願いします");
        ("privacyPolicy", VBool true);
        ("turnstileToken", VStr "tok123")].

Definition acme_request : NextRequest := mkRequest (inr acme_body).

(** The object [{"toString": 1}]. *)
Definition unprintable : Value :=
  VObj [("toString", VNum (S754_finite false 1 0))].

Definition acme_body_with_phone : Value :=
  VObj [("company", VStr "Acme");
        ("name", VStr "田中太郎");
        ("email", VStr "t@example.com");
        ("phone", VStr "03-1234-5678");
        ("message", VStr "お見積りをお願いします");
        ("privacyPolicy", VBool true);
        ("turnstileToken", VStr "tok123")].

Definition unconfigured_env : Env :=
  mkEnv (Some "re_key") (Some "cf_secret") None.

Definition unreachable_world : World :=
  scripted_world configured_env (inl "TypeError: fetch failed") webhook_ok
    (inr tt).

Definition unconfigured_world : World :=
  scripted_world unconfigured_env verification_ok webhook_ok (inr tt).

Definition empty_url_world : World :=
  scripted_world (mkEnv (Some "re_key") (Some "cf_secret") (Some ""))
    verification_ok webhook_ok (inr tt).

Definition other_secrets_world : World :=
  scripted_world
    (mkEnv None (Some "another_secret")
       (Some "https://discord.example/api/webhooks/2"))
    (inr (json_reply 200
            (VObj [("success", VBool false);
                   ("error-codes", VArr [VStr "timeout-or-duplicate"])])))
    webhook_ok (inl "resend down").

Definition forbidden_but_success : exn + Response :=
  inr (json_reply 403 (VObj [("success", VBool true)])).

(** ** How far a submission gets *)

(** The request body parses and passes the field validation. *)
Definition request_valid (request : NextRequest) : bool :=
  match request_json request with
  | inr body => passes_validation body
  | inl _ => false
  end.

(** ... and the verification service accepts it. *)
Definition request_verified (w : World) (request : NextRequest) : bool :=
  match request_json request with
  | inr body => passes_validation body && verified w body
  | inl _ => false
  end.

(** ... and the webhook is configured and takes the notification. *)
Definition request_notified (w : World) (request : NextRequest) : bool :=
  match request_json request with
  | inr body =>
      passes_validation body && verified w body && webhook_delivered w body
  | inl _ => false
  end.

(** The confirmation email of the request, when the template can be
    evaluated. *)
Definition request_email (request : NextRequest) : option Email :=
  match request_json request with
  | inr body =>
      match submission_email body with
      | inr mail => Some mail
      | inl _ => None
      end
  | inl _ => None
  end.

Definition is_verification_call (e : Event) : bool :=
  match e with
  | EvFetch _ init =>
      match init_body init with VerifyBody _ _ => true | WebhookBody _ => false end
  | _ => false
  end.

Definition is_console_error (e : Event) : bool :=
  match e with
  | EvConsoleError _ _ => true
  | EvFetch _ _ | EvEmailSend _ => false
  end.

(** What [console.error] printed during a run. *)
Definition console_errors (tr : list Event) : list Event :=
  filter is_console_error tr.

(** The (message, status) pairs the handler builds. *)
Definition fixed_responses : list NextResponse :=
  [ NextResponse_json "必須項目をすべて入力してください" 400;
    NextResponse_json "ボット検証に失敗しました。もう一度お試しください。" 400;
    NextResponse_json "サーバーエラーが発生しました" 500;
    NextResponse_json "送信に失敗しました。もう一度お試しください。" 500;
    NextResponse_json "送信が完了しました" 200 ].

(** The calls of a complete run, in order. *)
Definition full_call_sequence (w : World) (request : NextRequest)
  : list Event :=
  match request_json request with
  | inr body =>
      ([verification_call w body; webhook_call w body]
       ++ match submission_email body with
          | inr mail => [EvEmailSend mail]
          | inl _ => []
          end)%list
  | inl _ => []
  end.

(** The attempt to send the confirmation email of the request threw. *)
Definition request_email_failed (w : World) (request : NextRequest) : bool :=
  match request_json request with
  | inr body =>
      match email_attempt w body with
      | inl _ => true
      | inr _ => false
      end
  | inl _ => false
  end.

(** The parsed body of the request ([undefined] when parsing throws). *)
Definition request_body (request : NextRequest) : Value :=
  match request_json request with
  | inr body => body
  | inl _ => VUndefined
  end.

(** Where a [fetch] of the handler may go, and with what: the secret and
    the token to the verification endpoint, the notification to the
    configured webhook URL. *)
Definition fetch_allowed (w : World) (request : NextRequest) (ev : Event)
  : Prop :=
  match ev with
  | EvFetch url init =>
      init_method init = "POST"
      /\ init_headers init = [("Content-Type", "application/json")]
      /\ match init_body init with
         | VerifyBody secret token =>
             url = "https://challenges.cloudflare.com/turnstile/v0/siteverify"
             /\ secret = CF_SECRET_KEY (process_env w)
             /\ token = field (request_body request) "turnstileToken"
         | WebhookBody payload =>
             WEBHOOK_URL (process_env w) = Some url
             /\ url <> ""
             /\ payload = submission_payload w (request_body request)
         end
  | EvEmailSend _ | EvConsoleError _ _ => True
  end.

(** Two worlds whose services give the same replies to the request. *)
Definition same_replies (w1 w2 : World) (request : NextRequest) : Prop :=
  forall body,
    request_json request = inr body ->
    verification_reply w1 body = verification_reply w2 body
    /\ webhook_reply w1 body = webhook_reply w2 body
    /\ email_attempt w1 body = email_attempt w2 body.

(** The confirmation email of the Acme submission. *)
Definition acme_mail : Email :=
  mkEmail "株式会社ファンエクス <noreply@funex.co.jp>"
    (VStr "t@example.com")
    "お問い合わせを受け付けました - 株式会社ファンエクス"
    (mkEmailHtml (VStr "田中太郎") (VStr "Acme") (VStr "田中太郎")
       (VStr "t@example.com") None (VStr "お見積りをお願いします")).

(** ** The page script (mobile menu, header, in-page anchors)

    The listeners the page script registers on [DOMContentLoaded], as
    functions on the part of the page they read and write. *)

Module Script.

(** Numbers are doubles. *)
Definition number (z : Z) : spec_float := binary_normalize 53 1024 z 0 false.

Definition plus (x y : spec_float) : spec_float := SFadd 53 1024 x y.
Definition minus (x y : spec_float) : spec_float := SFsub 53 1024 x y.
(** [x > y] *)
Definition gt (x y : spec_float) : bool := SFltb y x.

(** [element.classList]: the class tokens of an element, in order. *)
Definition contains (classList : list string) (token : string) : bool :=
  existsb (String.eqb token) classList.

Definition remove (classList : list string) (token : string) : list string :=
  filter (fun c => negb (String.eqb token c)) classList.

Definition toggle (classList : list string) (token : string) : list string :=
  if contains classList token
  then remove classList token
  else (classList ++ [token])%list.

(** The three inline style properties the script sets on the header. *)
Record NavbarStyle : Type := mkNavbarStyle {
  background : string;
  padding : string;
  boxShadow : string
}.

Record ScrollToOptions : Type := mkScrollToOptions {
  top : spec_float;
  behavior : string
}.

Record Page : Type := mkPage {
  (* document.getElementById('mobile-menu'): its classes, or null *)
  mobileMenu : option (list string);
  (* document.getElementById('mobile-menu-btn') *)
  menuBtn : option (list string);
  (* document.querySelector('.navbar'): its inline style, or null *)
  navbar : option NavbarStyle;
  (* document.body.style.overflow *)
  body_overflow : string;
  (* the calls of window.scrollTo so far, oldest first *)
  scrollTo_calls : list ScrollToOptions
}.

(** What a listener leaves behind: the page, the exception it died of, and
    whether it called [preventDefault]. *)
Record Handled : Type := mkHandled {
  page : Page;
  thrown : option exn;
  defaultPrevented : bool
}.

Definition done (p : Page) : Handled := mkHandled p None false.

(** Click on the menu button.  The listener exists only when both the
    button and the menu were found. *)
Definition menuBtn_click (p : Page) : Handled :=
  match menuBtn p, mobileMenu p with
  | Some btn, Some menu =>
      let menu' := toggle menu "active" in
      let btn' := toggle btn "active" in
      done (mkPage (Some menu') (Some btn') (navbar p)
              (if contains menu' "active" then "hidden" else "")
              (scrollTo_calls p))
  | _, _ => done p
  end.

(** Click on a link inside the menu (same registration condition). *)
Definition menu_link_click (p : Page) : Handled :=
  match menuBtn p, mobileMenu p with
  | Some btn, Some menu =>
      done (mkPage (Some (remove menu "active")) (Some (remove btn "active"))
              (navbar p) "" (scrollTo_calls p))
  | _, _ => done p
  end.

Definition scrolled_style : NavbarStyle :=
  mkNavbarStyle "rgba(15, 23, 42, 0.95)" "15px 0" "0 4px 20px rgba(0,0,0,0.3)".

Definition top_style : NavbarStyle :=
  mkNavbarStyle "rgba(15, 23, 42, 0.8)" "20px 0" "none".

(** The window's scroll listener, at [window.scrollY = scrollY]. *)
Definition window_scroll (scrollY : spec_float) (p : Page) : Handled :=
  match navbar p with
  | None =>
      mkHandled p
        (Some "TypeError: Cannot read properties of null (reading 'style')")
        false
  | Some _ =>
      done (mkPage (mobileMenu p) (menuBtn p)
              (Some (if gt scrollY (number 50)
                     then scrolled_style else top_style))
              (body_overflow p) (scrollTo_calls p))
  end.

Definition headerOffset : spec_float := number 80.

(** Click on an anchor [a[href^="#"]].  [found] is what
    [document.querySelector(targetId)] does: it throws on an invalid
    selector, or gives null, or the element, of which only
    [getBoundingClientRect().top] is read. *)
Definition anchor_click (href : string) (found : exn + option spec_float)
    (pageYOffset : spec_float) (p : Page) : Handled :=
  if String.eqb href "#" then mkHandled p None true
  else
    match found with
    | inl e => mkHandled p (Some e) true
    | inr None => mkHandled p None true
    | inr (Some elementPosition) =>
        match mobileMenu p with
        | None =>
            mkHandled p
              (Some
                 "TypeError: Cannot read properties of null (reading 'classList')")
              true
        | Some menu =>
            let offsetPosition :=
              minus (plus elementPosition pageYOffset) headerOffset in
            mkHandled
              (mkPage (Some (remove menu "active"))
                 (option_map (fun btn => remove btn "active") (menuBtn p))
                 (navbar p) ""
                 (scrollTo_calls p
                  ++ [mkScrollToOptions offsetPosition "smooth"])%list)
              None true
        end
    end.

Inductive DomEvent : Type :=
| MenuBtnClick
| MenuLinkClick
| WindowScroll (scrollY : spec_float)
| AnchorClick (href : string) (found : exn + option spec_float)
    (pageYOffset : spec_float).

Definition dispatch (p : Page) (ev : DomEvent) : Handled :=
  match ev with
  | MenuBtnClick => menuBtn_click p
  | MenuLinkClick => menu_link_click p
  | WindowScroll scrollY => window_scroll scrollY p
  | AnchorClick href found pageYOffset => anchor_click href found pageYOffset p
  end.

(** The page after a sequence of events; an exception ends its listener
    only. *)
Definition run (p : Page) (evs : list DomEvent) : Page :=
  fold_left (fun q ev => page (dispatch q ev)) evs p.

(** The menu is open. *)
Definition menu_open (p : Page) : bool :=
  match mobileMenu p with
  | Some menu => contains menu "active"
  | None => false
  end.

(** Menu and button are there and agree on [active], and the page scroll
    is locked exactly while the menu is open. *)
Definition menu_consistent (p : Page) : Prop :=
  exists menu btn,
    mobileMenu p = Some menu
    /\ menuBtn p = Some btn
    /\ contains btn "active" = contains menu "active"
    /\ body_overflow p = (if contains menu "active" then "hidden" else "").

(** The event is a click on an anchor that leads somewhere: the href is
    not the bare "#" and its target exists. *)
Definition leads_somewhere (ev : DomEvent) : bool :=
  match ev with
  | AnchorClick href (inr (Some _)) _ => negb (String.eqb href "#")
  | _ => false
  end.

Definition closed_page : Page :=
  mkPage (Some ["mobile-menu"]) (Some ["menu-btn"]) (Some top_style) "" [].

End Script.

(** The secrets of [configured_env] replaced by others. *)
Definition rotated_env : Env :=
  mkEnv (Some "re_other") (Some "cf_other")
    (Some "https://discord.example/api/webhooks/9").

Definition webhook_refuses : exn + Response :=
  inr (mkResponse 429 (inl "SyntaxError") (inr "rate limited")).

(** ** Equations of the monad *)

Lemma bind_lift_inr {A B} (a : A) (k : A -> M B) :
  bind (lift (inr a)) k = k a.
Proof. unfold bind, lift. destruct (k a); reflexivity. Qed.

Lemma bind_lift_inl {A B} (e : exn) (k : A -> M B) :
  bind (lift (inl e)) k = (inl e, []).
Proof. reflexivity. Qed.

Lemma bind_ret {A B} (a : A) (k : A -> M B) : bind (ret a) k = k a.
Proof. exact (bind_lift_inr a k). Qed.

Lemma bind_emit {B} (ev : Event) (k : unit -> M B) :
  bind (emit ev) k = (fst (k tt), ev :: snd (k tt)).
Proof. unfold bind, emit. destruct (k tt); reflexivity. Qed.

Lemma bind_fetch {B} (w : World) url init (k : Response -> M B) :
  bind (fetch w url init) k =
  match net_fetch w url init with
  | inl e => (inl e, [EvFetch url init])
  | inr r => (fst (k r), EvFetch url init :: snd (k r))
  end.
Proof.
  unfold fetch, bind, emit, lift.
  destruct (net_fetch w url init) as [e | r]; [reflexivity |].
  destruct (k r); reflexivity.
Qed.

Lemma try_email {B} (w : World) (built : exn + Email) (k : unit -> M B) :
  bind (try_catch (mail <- lift built ;; emails_send w mail)
          (fun emailError =>
             console_error "Email sending failed:" (LogExn emailError))) k =
  match built with
  | inl e =>
      (fst (k tt),
       EvConsoleError "Email sending failed:" (LogExn e) :: snd (k tt))
  | inr mail =>
      match resend_emails_send w mail with
      | inl e =>
          (fst (k tt),
           EvEmailSend mail
             :: EvConsoleError "Email sending failed:" (LogExn e) :: snd (k tt))
      | inr _ => (fst (k tt), EvEmailSend mail :: snd (k tt))
      end
  end.
Proof.
  unfold emails_send, try_catch, console_error, bind, emit, lift.
  destruct built as [e | mail]; [destruct (k tt); reflexivity |].
  destruct (resend_emails_send w mail) as [e | []]; destruct (k tt); reflexivity.
Qed.

(** A body that passes validation is an object, and its six required
    properties are truthy. *)
Lemma passes_validation_fields (body : Value) :
  passes_validation body = true ->
  (forall key, get_prop body key = inr (field body key))
  /\ truthy (field body "company") = true
  /\ truthy (field body "name") = true
  /\ truthy (field body "email") = true
  /\ truthy (field body "message") = true
  /\ truthy (field body "privacyPolicy") = true
  /\ truthy (field body "turnstileToken") = true.
Proof.
  unfold passes_validation, required_keys. cbn [forallb].
  rewrite !andb_true_iff. intros (Hc & Hn & He & Hm & Hp & Ht & _).
  repeat split; try assumption.
  intros key. destruct body; try reflexivity; discriminate Hc.
Qed.

(** The handler after the request body has been read. *)
Lemma POST_body (w : World) (request : NextRequest) (body : Value) :
  request_json request = inr body ->
  (forall key, get_prop body key = inr (field body key)) ->
  POST w request =
  try_catch
    (if negb (passes_validation body)
     then ret (NextResponse_json msg_required 400)
     else
       turnstileResponse <-
         fetch w turnstileVerifyUrl
           (verify_init (CF_SECRET_KEY (process_env w))
              (field body "turnstileToken")) ;;
       turnstileData <- lift (resp_json turnstileResponse) ;;
       success <- lift (get_prop turnstileData "success") ;;
       if negb (truthy success)
       then
         codes <- lift (get_prop turnstileData "error-codes") ;;
         console_error "Turnstile verification failed:" (LogValue codes) ;;;
         ret (NextResponse_json msg_bot_failed 400)
       else
         if negb (webhook_configured w)
         then
           console_error "WEBHOOK_URL is not configured" LogNothing ;;;
           ret (NextResponse_json msg_server_error 500)
         else
           webhookResponse <-
             fetch w (env_string (WEBHOOK_URL (process_env w)))
               (webhook_init (submission_payload w body)) ;;
           if negb (resp_ok webhookResponse)
           then
             txt <- lift (resp_text webhookResponse) ;;
             console_error "Discord webhook failed:" (LogText txt) ;;;
             ret (NextResponse_json msg_send_failed 500)
           else
             try_catch
               (mail <- lift (submission_email body) ;; emails_send w mail)
               (fun emailError =>
                  console_error "Email sending failed:" (LogExn emailError)) ;;;
             ret (NextResponse_json msg_done 200))
    (fun error =>
       console_error "Contact form error:" (LogExn error) ;;;
       ret (NextResponse_json msg_server_error 500)).
Proof.
  intros Hbody Hget. unfold POST. rewrite Hbody, bind_lift_inr.
  rewrite !Hget, !bind_lift_inr.
  replace (negb (passes_validation body)) with
    (negb (truthy (field body "company")) || negb (truthy (field body "name"))
     || negb (truthy (field body "email")) || negb (truthy (field body "message"))
     || negb (truthy (field body "privacyPolicy"))
     || negb (truthy (field body "turnstileToken"))).
  - reflexivity.
  - unfold passes_validation, required_keys. cbn [forallb].
    rewrite !negb_andb. cbn [negb]. rewrite orb_false_r, !orb_assoc. reflexivity.
Qed.

(** ** The paths through the handler

    One lemma per way out of [POST]: the response and the complete trace. *)

Ltac run_handler :=
  unfold console_error;
  repeat (first
    [ rewrite bind_lift_inr | rewrite bind_lift_inl | rewrite bind_ret
    | rewrite bind_fetch | rewrite bind_emit | rewrite try_email
    | progress cbn [fst snd negb try_catch ret app] ]).

Section Paths.
Variables (w : World) (request : NextRequest).

Lemma path_parse_throws (e : exn) :
  request_json request = inl e ->
  POST w request = (inr server_error_500, [caught e]).
Proof. intros H. unfold POST. rewrite H. reflexivity. Qed.

Lemma path_unreadable_body (body : Value) (e : exn) :
  request_json request = inr body ->
  get_prop body "company" = inl e ->
  POST w request = (inr server_error_500, [caught e]).
Proof.
  intros H He. unfold POST. rewrite H, bind_lift_inr, He. reflexivity.
Qed.

Variable body : Value.
Hypothesis Hbody : request_json request = inr body.

Lemma path_fails_validation :
  (forall key, get_prop body key = inr (field body key)) ->
  passes_validation body = false ->
  POST w request = (inr required_400, []).
Proof.
  intros Hget Hv. rewrite (POST_body w request Hbody Hget), Hv. reflexivity.
Qed.

Hypothesis Hvalid : passes_validation body = true.

Lemma POST_valid :
  POST w request =
  try_catch
    (turnstileResponse <-
       fetch w turnstileVerifyUrl
         (verify_init (CF_SECRET_KEY (process_env w))
            (field body "turnstileToken")) ;;
     turnstileData <- lift (resp_json turnstileResponse) ;;
     success <- lift (get_prop turnstileData "success") ;;
     if negb (truthy success)
     then
       codes <- lift (get_prop turnstileData "error-codes") ;;
       console_error "Turnstile verification failed:" (LogValue codes) ;;;
       ret (NextResponse_json msg_bot_failed 400)
     else
       if negb (webhook_configured w)
       then
         console_error "WEBHOOK_URL is not configured" LogNothing ;;;
         ret (NextResponse_json msg_server_error 500)
       else
         webhookResponse <-
           fetch w (env_string (WEBHOOK_URL (process_env w)))
             (webhook_init (submission_payload w body)) ;;
         if negb (resp_ok webhookResponse)
         then
           txt <- lift (resp_text webhookResponse) ;;
           console_error "Discord webhook failed:" (LogText txt) ;;;
           ret (NextResponse_json msg_send_failed 500)
         else
           try_catch
             (mail <- lift (submission_email body) ;; emails_send w mail)
             (fun emailError =>
                console_error "Email sending failed:" (LogExn emailError)) ;;;
           ret (NextResponse_json msg_done 200))
    (fun error =>
       console_error "Contact form error:" (LogExn error) ;;;
       ret (NextResponse_json msg_server_error 500)).
Proof.
  destruct (passes_validation_fields body Hvalid) as [Hget _].
  rewrite (POST_body w request Hbody Hget), Hvalid. reflexivity.
Qed.

Lemma path_verification_unreachable (e : exn) :
  verification_reply w body = inl e ->
  POST w request = (inr server_error_500, [verification_call w body; caught e]).
Proof.
  intros H. rewrite POST_valid. unfold verification_reply in H.
  run_handler. rewrite H. reflexivity.
Qed.

Variable turnstileResponse : Response.
Hypothesis Hreply : verification_reply w body = inr turnstileResponse.

Lemma path_verification_unparseable (e : exn) :
  resp_json turnstileResponse = inl e ->
  POST w request = (inr server_error_500, [verification_call w body; caught e]).
Proof.
  intros H. rewrite POST_valid. unfold verification_reply in Hreply.
  run_handler. rewrite Hreply, H. reflexivity.
Qed.

Variable turnstileData : Value.
Hypothesis Hdata : resp_json turnstileResponse = inr turnstileData.

Lemma path_verification_no_object (e : exn) :
  get_prop turnstileData "success" = inl e ->
  POST w request = (inr server_error_500, [verification_call w body; caught e]).
Proof.
  intros H. rewrite POST_valid. unfold verification_reply in Hreply.
  run_handler. rewrite Hreply, Hdata. run_handler. rewrite H. reflexivity.
Qed.

Lemma path_verification_rejected (success : Value) :
  get_prop turnstileData "success" = inr success ->
  truthy success = false ->
  POST w request =
    (inr bot_failed_400,
     [verification_call w body;
      EvConsoleError "Turnstile verification failed:"
        (LogValue (field turnstileData "error-codes"))]).
Proof.
  intros H Hs. rewrite POST_valid. unfold verification_reply in Hreply.
  run_handler. rewrite Hreply, Hdata. run_handler. rewrite H. run_handler.
  rewrite Hs. unfold field.
  destruct turnstileData; try discriminate H; reflexivity.
Qed.

Hypothesis Hsuccess : reports_success turnstileData = true.

Lemma POST_verified :
  POST w request =
  try_catch
    (emit (verification_call w body) ;;;
     if negb (webhook_configured w)
     then
       console_error "WEBHOOK_URL is not configured" LogNothing ;;;
       ret (NextResponse_json msg_server_error 500)
     else
       webhookResponse <-
         fetch w (env_string (WEBHOOK_URL (process_env w)))
           (webhook_init (submission_payload w body)) ;;
       if negb (resp_ok webhookResponse)
       then
         txt <- lift (resp_text webhookResponse) ;;
         console_error "Discord webhook failed:" (LogText txt) ;;;
         ret (NextResponse_json msg_send_failed 500)
       else
         try_catch
           (mail <- lift (submission_email body) ;; emails_send w mail)
           (fun emailError =>
              console_error "Email sending failed:" (LogExn emailError)) ;;;
         ret (NextResponse_json msg_done 200))
    (fun error =>
       console_error "Contact form error:" (LogExn error) ;;;
       ret (NextResponse_json msg_server_error 500)).
Proof.
  rewrite POST_valid. unfold verification_reply in Hreply.
  unfold reports_success in Hsuccess.
  destruct (get_prop turnstileData "success") as [e | success] eqn:Hs;
    [discriminate |].
  rewrite bind_fetch, Hreply, Hdata, bind_lift_inr, Hs, bind_lift_inr, Hsuccess.
  cbn [negb]. rewrite bind_emit. reflexivity.
Qed.

Lemma path_webhook_unconfigured :
  webhook_configured w = false ->
  POST w request =
    (inr server_error_500,
     [verification_call w body;
      EvConsoleError "WEBHOOK_URL is not configured" LogNothing]).
Proof. intros H. rewrite POST_verified, H. reflexivity. Qed.

Hypothesis Hconfigured : webhook_configured w = true.

Lemma path_webhook_unreachable (e : exn) :
  webhook_reply w body = inl e ->
  POST w request =
    (inr server_error_500,
     [verification_call w body; webhook_call w body; caught e]).
Proof.
  intros H. rewrite POST_verified, Hconfigured. unfold webhook_reply in H.
  run_handler. rewrite H. reflexivity.
Qed.

Variable webhookResponse : Response.
Hypothesis Hwebhook : webhook_reply w body = inr webhookResponse.

Lemma path_webhook_refused_unreadable (e : exn) :
  resp_ok webhookResponse = false ->
  resp_text webhookResponse = inl e ->
  POST w request =
    (inr server_error_500,
     [verification_call w body; webhook_call w body; caught e]).
Proof.
  intros Hok H. rewrite POST_verified, Hconfigured.
  unfold webhook_reply in Hwebhook.
  run_handler. rewrite Hwebhook, Hok. run_handler. rewrite H. reflexivity.
Qed.

Lemma path_webhook_refused (txt : string) :
  resp_ok webhookResponse = false ->
  resp_text webhookResponse = inr txt ->
  POST w request =
    (inr send_failed_500,
     [verification_call w body; webhook_call w body;
      EvConsoleError "Discord webhook failed:" (LogText txt)]).
Proof.
  intros Hok H. rewrite POST_verified, Hconfigured.
  unfold webhook_reply in Hwebhook.
  run_handler. rewrite Hwebhook, Hok. run_handler. rewrite H. reflexivity.
Qed.

Hypothesis Hok : resp_ok webhookResponse = true.

Lemma path_email_not_built (e : exn) :
  submission_email body = inl e ->
  POST w request =
    (inr done_200,
     [verification_call w body; webhook_call w body;
      EvConsoleError "Email sending failed:" (LogExn e)]).
Proof.
  intros H. rewrite POST_verified, Hconfigured.
  unfold webhook_reply in Hwebhook.
  run_handler. rewrite Hwebhook, Hok. run_handler. rewrite H. reflexivity.
Qed.

Variable mail : Email.
Hypothesis Hmail : submission_email body = inr mail.

Lemma path_email_throws (e : exn) :
  resend_emails_send w mail = inl e ->
  POST w request =
    (inr done_200,
     [verification_call w body; webhook_call w body;
      EvEmailSend mail;
      EvConsoleError "Email sending failed:" (LogExn e)]).
Proof.
  intros H. rewrite POST_verified, Hconfigured.
  unfold webhook_reply in Hwebhook.
  run_handler. rewrite Hwebhook, Hok. run_handler. rewrite Hmail, H. reflexivity.
Qed.

Lemma path_email_sent :
  resend_emails_send w mail = inr tt ->
  POST w request =
    (inr done_200,
     [verification_call w body; webhook_call w body; EvEmailSend mail]).
Proof.
  intros H. rewrite POST_verified, Hconfigured.
  unfold webhook_reply in Hwebhook.
  run_handler. rewrite Hwebhook, Hok. run_handler. rewrite Hmail, H. reflexivity.
Qed.
End Paths.

Lemma readable_body (body : Value) (key : string) (v : Value) :
  get_prop body key = inr v ->
  forall key', get_prop body key' = inr (field body key').
Proof. intros H key'. destruct body; try discriminate H; reflexivity. Qed.

Lemma POST_path (w : World) (request : NextRequest) :
  Path w request (POST w request).
Proof.
  destruct (request_json request) as [e | body] eqn:Hbody.
  { rewrite (path_parse_throws w request Hbody). now apply PathParseThrows. }
  destruct (get_prop body "company") as [e | company] eqn:Hcompany.
  { rewrite (path_unreadable_body w request Hbody Hcompany).
    now apply PathUnreadableBody with body. }
  pose proof (readable_body body "company" Hcompany) as Hget.
  destruct (passes_validation body) eqn:Hvalid.
  2:{ rewrite (path_fails_validation w request Hbody Hget Hvalid).
      now apply PathFailsValidation with body. }
  destruct (verification_reply w body) as [e | tr] eqn:Hreply.
  { rewrite (path_verification_unreachable w request Hbody Hvalid Hreply).
    now apply PathVerificationUnreachable. }
  destruct (resp_json tr) as [e | data] eqn:Hdata.
  { rewrite (path_verification_unparseable w request Hbody Hvalid Hreply Hdata).
    now apply PathVerificationUnparseable with tr. }
  destruct (get_prop data "success") as [e | success] eqn:Hsuccess.
  { rewrite (path_verification_no_object w request Hbody Hvalid Hreply Hdata
               Hsuccess).
    now apply PathVerificationNoObject with tr data. }
  destruct (truthy success) eqn:Htruthy.
  2:{ rewrite (path_verification_rejected w request Hbody Hvalid Hreply Hdata
                 Hsuccess Htruthy).
      now apply PathVerificationRejected with tr success. }
  assert (Hrep : reports_success data = true)
    by (unfold reports_success; now rewrite Hsuccess).
  destruct (webhook_configured w) eqn:Hconf.
  2:{ rewrite (path_webhook_unconfigured w request Hbody Hvalid Hreply Hdata
                 Hrep Hconf).
      now apply PathWebhookUnconfigured with tr data. }
  destruct (webhook_reply w body) as [e | wr] eqn:Hwebhook.
  { rewrite (path_webhook_unreachable w request Hbody Hvalid Hreply Hdata Hrep
               Hconf Hwebhook).
    now apply PathWebhookUnreachable with tr data. }
  destruct (resp_ok wr) eqn:Hok.
  2:{ destruct (resp_text wr) as [e | txt] eqn:Htext.
      - rewrite (path_webhook_refused_unreadable w request Hbody Hvalid Hreply
                   Hdata Hrep Hconf Hwebhook Hok Htext).
        now apply PathWebhookRefusedUnreadable with tr data wr.
      - rewrite (path_webhook_refused w request Hbody Hvalid Hreply Hdata Hrep
                   Hconf Hwebhook Hok Htext).
        now apply PathWebhookRefused with tr data wr. }
  destruct (submission_email body) as [e | mail] eqn:Hmail.
  { rewrite (path_email_not_built w request Hbody Hvalid Hreply Hdata Hrep Hconf
               Hwebhook Hok Hmail).
    now apply PathEmailNotBuilt with tr data wr. }
  destruct (resend_emails_send w mail) as [e | []] eqn:Hsend.
  - rewrite (path_email_throws w request Hbody Hvalid Hreply Hdata Hrep Hconf
               Hwebhook Hok Hmail Hsend).
    now apply PathEmailThrows with tr data wr.
  - rewrite (path_email_sent w request Hbody Hvalid Hreply Hdata Hrep Hconf
               Hwebhook Hok Hmail Hsend).
    now apply PathEmailSent with tr data wr.
Qed.

(** ** Properties of the handler *)

(** A name that cannot be converted to a string: the template literal
    throws inside the inner [try], nothing is sent, and the answer is still
    200. *)
Example unprintable_name_is_200 :
  POST all_ok_world
    (mkRequest
       (inr (VObj [("company", VStr "Acme");
                   ("name", unprintable);
                   ("email", VStr "t@example.com");
                   ("message", VStr "hello");
                   ("privacyPolicy", VBool true);
                   ("turnstileToken", VStr "tok123")])))
  = (inr done_200,
     [ EvFetch turnstileVerifyUrl
         (verify_init (Some "cf_secret") (VStr "tok123"));
       EvFetch "https://discord.example/api/webhooks/1"
         (webhook_init
            (discordPayload (VStr "Acme") (unprintable)
               (VStr "t@example.com") VUndefined (VStr "hello")
               "2025-01-01T00:00:00.000Z"));
       EvConsoleError "Email sending failed:"
         (LogExn "TypeError: Cannot convert object to primitive value") ]).
Proof. reflexivity. Qed.

(** A submission is [verified] exactly when the verification reply parses
    to a body that reports success. *)
Lemma verified_inv (w : World) (body : Value) :
  verified w body = true ->
  exists turnstileResponse turnstileData,
    verification_reply w body = inr turnstileResponse
    /\ resp_json turnstileResponse = inr turnstileData
    /\ reports_success turnstileData = true.
Proof.
  unfold verified. destruct (verification_reply w body) as [e | r]; [discriminate |].
  destruct (resp_json r) as [e | d] eqn:Hd; [discriminate |].
  intros H. now exists r, d.
Qed.

Lemma webhook_delivered_inv (w : World) (body : Value) :
  webhook_delivered w body = true ->
  webhook_configured w = true
  /\ exists webhookResponse,
       webhook_reply w body = inr webhookResponse
       /\ resp_ok webhookResponse = true.
Proof.
  unfold webhook_delivered. rewrite andb_true_iff. intros [Hc H]. split; [exact Hc |].
  destruct (webhook_reply w body) as [e | r]; [discriminate |]. now exists r.
Qed.

(** A validated, verified and delivered submission is answered 200
    whatever the email service does. *)
Lemma delivered_is_200 (w : World) (request : NextRequest) (body : Value) :
  request_json request = inr body ->
  passes_validation body = true ->
  verified w body = true ->
  webhook_delivered w body = true ->
  response_of w request = inr done_200.
Proof.
  intros Hbody Hvalid Hver Hdel.
  destruct (verified_inv w body Hver) as (r & d & Hr & Hd & Hs).
  destruct (webhook_delivered_inv w body Hdel) as (Hc & wr & Hw & Hok).
  unfold response_of.
  destruct (submission_email body) as [e | mail] eqn:Hm.
  { now rewrite (path_email_not_built w request Hbody Hvalid Hr Hd Hs Hc Hw Hok
                   Hm). }
  destruct (resend_emails_send w mail) as [e | []] eqn:Hsend.
  - now rewrite (path_email_throws w request Hbody Hvalid Hr Hd Hs Hc Hw Hok Hm
                   Hsend).
  - now rewrite (path_email_sent w request Hbody Hvalid Hr Hd Hs Hc Hw Hok Hm
                   Hsend).
Qed.

(** C1. If field validation and bot verification pass and the webhook
    delivery succeeds, a confirmation-email send that throws still gives the
    success response with status 200: the exception is logged, and no
    behaviour of the email service changes the response. *)
Theorem email_failure_still_200 (w : World) (request : NextRequest)
    (body : Value) (emailError : exn) :
  request_json request = inr body ->
  passes_validation body = true ->
  verified w body = true ->
  webhook_delivered w body = true ->
  email_attempt w body = inl emailError ->
  response_of w request = inr (NextResponse_json "送信が完了しました" 200)
  /\ In (EvConsoleError "Email sending failed:" (LogExn emailError))
       (trace_of w request)
  /\ forall send,
       response_of (with_email_service w send) request = response_of w request.
Proof.
  intros Hbody Hvalid Hver Hdel Hmail. split; [| split].
  - exact (delivered_is_200 w request Hbody Hvalid Hver Hdel).
  - destruct (verified_inv w body Hver) as (r & d & Hr & Hd & Hs).
    destruct (webhook_delivered_inv w body Hdel) as (Hc & wr & Hw & Hok).
    unfold email_attempt in Hmail. unfold trace_of.
    destruct (submission_email body) as [e | mail] eqn:Hm.
    + injection Hmail as ->.
      rewrite (path_email_not_built w request Hbody Hvalid Hr Hd Hs Hc Hw Hok
                 Hm).
      cbn. auto.
    + rewrite (path_email_throws w request Hbody Hvalid Hr Hd Hs Hc Hw Hok Hm
                 Hmail).
      cbn. auto.
  - intros send.
    rewrite (delivered_is_200 w request Hbody Hvalid Hver Hdel).
    now apply delivered_is_200 with body.
Qed.

Lemma email_failure_still_200_witness :
  response_of
    (scripted_world configured_env verification_ok webhook_ok (inl "timeout"))
    acme_request
  = inr (NextResponse_json "送信が完了しました" 200)
  /\ In (EvConsoleError "Email sending failed:" (LogExn "timeout"))
       (trace_of
          (scripted_world configured_env verification_ok webhook_ok
             (inl "timeout"))
          acme_request)
  /\ forall send,
       response_of
         (with_email_service
            (scripted_world configured_env verification_ok webhook_ok
               (inl "timeout")) send)
         acme_request
       = response_of
           (scripted_world configured_env verification_ok webhook_ok
              (inl "timeout"))
           acme_request.
Proof.
  apply (@email_failure_still_200
           (scripted_world configured_env verification_ok webhook_ok
              (inl "timeout"))
           acme_request acme_body "timeout"); reflexivity.
Defined.

(** C2, as stated, fails: in the payload [null] every required field is
    missing, yet the handler answers 500, not 400, because destructuring
    [null] throws and the catch-all takes over. *)
Lemma null_payload_is_500 :
  request_json (mkRequest (inr VNull)) = inr VNull
  /\ truthy (field VNull "company") = false
  /\ passes_validation VNull = false
  /\ response_of all_ok_world (mkRequest (inr VNull))
     = inr (NextResponse_json "サーバーエラーが発生しました" 500)
  /\ response_of all_ok_world (mkRequest (inr VNull))
     <> inr (NextResponse_json "必須項目をすべて入力してください" 400).
Proof. repeat split; try reflexivity; discriminate. Qed.

(** C2, amended. For every request payload other than [null] (and
    [undefined], which is no JSON value) in which any one of company, name,
    email, message, privacyPolicy or turnstileToken is missing or falsy, the
    handler answers 400 with the fill-in-all-required-fields message and
    performs no effect at all: no verification, webhook or email call,
    nothing logged. *)
Theorem missing_field_400_no_calls (w : World) (request : NextRequest)
    (body : Value) (key : string) :
  request_json request = inr body ->
  body <> VNull ->
  body <> VUndefined ->
  In key required_keys ->
  truthy (field body key) = false ->
  response_of w request
    = inr (NextResponse_json "必須項目をすべて入力してください" 400)
  /\ outbound_calls (trace_of w request) = []
  /\ trace_of w request = [].
Proof.
  intros Hbody Hnull Hundef Hin Hfalsy.
  assert (Hread : forall key', get_prop body key' = inr (field body key'))
    by (intros key'; destruct body; try reflexivity; contradiction).
  assert (Hinvalid : passes_validation body = false).
  { unfold passes_validation. apply not_true_is_false. intros Hall.
    rewrite forallb_forall in Hall. specialize (Hall key Hin). congruence. }
  unfold response_of, trace_of.
  rewrite (path_fails_validation w request Hbody Hread Hinvalid).
  repeat split.
Qed.

Lemma missing_field_400_no_calls_witness :
  response_of all_ok_world
    (mkRequest (inr (VObj [("company", VStr "Acme"); ("name", VStr "")])))
    = inr (NextResponse_json "必須項目をすべて入力してください" 400)
  /\ outbound_calls
       (trace_of all_ok_world
          (mkRequest (inr (VObj [("company", VStr "Acme"); ("name", VStr "")]))))
     = []
  /\ trace_of all_ok_world
       (mkRequest (inr (VObj [("company", VStr "Acme"); ("name", VStr "")])))
     = [].
Proof.
  apply (@missing_field_400_no_calls all_ok_world
           (mkRequest (inr (VObj [("company", VStr "Acme"); ("name", VStr "")])))
           (VObj [("company", VStr "Acme"); ("name", VStr "")])
           "name").
  - reflexivity.
  - discriminate.
  - discriminate.
  - simpl. auto.
  - reflexivity.
Defined.

(** In every world a literal [null] body ends in the catch-all. *)
Lemma null_body_500 (w : World) :
  POST w (mkRequest (inr VNull))
  = (inr server_error_500,
     [caught "TypeError: cannot read property company"]).
Proof. reflexivity. Qed.

(** C9. A request whose body is not valid JSON (parsing throws) gets the
    generic server-error response with status 500, which is not the 400
    missing-fields response, and no outbound call is made. *)
Theorem POST_invalid_json_500 (w : World) (request : NextRequest) (e : exn) :
  request_json request = inl e ->
  response_of w request = inr (NextResponse_json "サーバーエラーが発生しました" 500)
  /\ NextResponse_json "サーバーエラーが発生しました" 500
     <> NextResponse_json "必須項目をすべて入力してください" 400
  /\ outbound_calls (trace_of w request) = [].
Proof.
  intros Hparse. unfold response_of, trace_of.
  rewrite (path_parse_throws w request Hparse).
  repeat split. discriminate.
Qed.

Lemma POST_invalid_json_500_witness :
  response_of all_ok_world (mkRequest (inl "SyntaxError: Unexpected token"))
    = inr (NextResponse_json "サーバーエラーが発生しました" 500)
  /\ NextResponse_json "サーバーエラーが発生しました" 500
     <> NextResponse_json "必須項目をすべて入力してください" 400
  /\ outbound_calls
       (trace_of all_ok_world (mkRequest (inl "SyntaxError: Unexpected token")))
     = [].
Proof.
  apply (@POST_invalid_json_500 all_ok_world
           (mkRequest (inl "SyntaxError: Unexpected token"))
           "SyntaxError: Unexpected token").
  reflexivity.
Defined.

(** C3. For a payload that passes field validation, a verification
    response whose body reports [success: false] (or any falsy [success])
    is answered 400, and neither the webhook nor the email service is
    called. *)
Theorem verification_rejected_400 (w : World) (request : NextRequest)
    (body : Value) (turnstileResponse : Response)
    (turnstileData success : Value) :
  request_json request = inr body ->
  passes_validation body = true ->
  verification_reply w body = inr turnstileResponse ->
  resp_json turnstileResponse = inr turnstileData ->
  get_prop turnstileData "success" = inr success ->
  truthy success = false ->
  response_of w request
    = inr (NextResponse_json
             "ボット検証に失敗しました。もう一度お試しください。" 400)
  /\ existsb is_webhook_call (trace_of w request) = false
  /\ existsb is_email_send (trace_of w request) = false.
Proof.
  intros Hbody Hvalid Hreply Hdata Hsuccess Hfalsy.
  unfold response_of, trace_of.
  rewrite (path_verification_rejected w request Hbody Hvalid Hreply Hdata
             Hsuccess Hfalsy).
  repeat split.
Qed.

Lemma verification_rejected_400_witness :
  response_of
    (scripted_world configured_env verification_rejects webhook_ok (inr tt))
    acme_request
  = inr (NextResponse_json
           "ボット検証に失敗しました。もう一度お試しください。" 400)
  /\ existsb is_webhook_call
       (trace_of
          (scripted_world configured_env verification_rejects webhook_ok (inr tt))
          acme_request) = false
  /\ existsb is_email_send
       (trace_of
          (scripted_world configured_env verification_rejects webhook_ok (inr tt))
          acme_request) = false.
Proof.
  apply (@verification_rejected_400
           (scripted_world configured_env verification_rejects webhook_ok (inr tt))
           acme_request acme_body
           (json_reply 200
              (VObj [("success", VBool false);
                     ("error-codes", VArr [VStr "invalid-input-response"])]))
           (VObj [("success", VBool false);
                  ("error-codes", VArr [VStr "invalid-input-response"])])
           (VBool false)); reflexivity.
Defined.

(** C4, as stated, fails: with a valid payload and the verification
    service unreachable, the answer is 500, not 400. *)
Lemma verification_unreachable_is_500 :
  passes_validation acme_body = true
  /\ verified unreachable_world acme_body = false
  /\ response_of unreachable_world acme_request
     = inr (NextResponse_json "サーバーエラーが発生しました" 500)
  /\ response_of unreachable_world acme_request
     <> inr (NextResponse_json
               "ボット検証に失敗しました。もう一度お試しください。" 400)
  /\ exists r,
       response_of unreachable_world acme_request = inr r
       /\ status r = 500%Z /\ status r <> 400%Z.
Proof.
  repeat split; try reflexivity; try discriminate.
  eexists. split; [reflexivity |]. split; [reflexivity | discriminate].
Qed.

(** C4, amended. For a payload that passes field validation, every
    non-success outcome of the verification is a failure with a fixed generic
    message: 400 with the bot-verification message when the reply parses to
    a body whose success field is falsy, and 500 with the server-error
    message when the service cannot be reached or its reply cannot be
    parsed. *)
Theorem verification_failure_response (w : World) (request : NextRequest)
    (body : Value) :
  request_json request = inr body ->
  passes_validation body = true ->
  verification_outcome w body <> Accepted ->
  response_of w request =
    inr (match verification_outcome w body with
         | Rejected =>
             NextResponse_json
               "ボット検証に失敗しました。もう一度お試しください。" 400
         | _ => NextResponse_json "サーバーエラーが発生しました" 500
         end).
Proof.
  intros Hbody Hvalid. unfold verification_outcome, response_of.
  destruct (verification_reply w body) as [e | r] eqn:Hreply.
  { intros _. now rewrite (path_verification_unreachable w request Hbody Hvalid Hreply). }
  destruct (resp_json r) as [e | d] eqn:Hdata.
  { intros _.
    now rewrite (path_verification_unparseable w request Hbody Hvalid Hreply Hdata). }
  destruct (get_prop d "success") as [e | s] eqn:Hs.
  { intros _.
    now rewrite (path_verification_no_object w request Hbody Hvalid Hreply Hdata Hs). }
  destruct (truthy s) eqn:Ht; [congruence |].
  intros _.
  now rewrite (path_verification_rejected w request Hbody Hvalid Hreply Hdata Hs Ht).
Qed.

Lemma verification_failure_response_witness :
  response_of
    (scripted_world configured_env
       (inr (mkResponse 502 (inl "SyntaxError") (inr "<html>"))) webhook_ok
       (inr tt))
    acme_request
  = inr (NextResponse_json "サーバーエラーが発生しました" 500).
Proof.
  apply (@verification_failure_response
           (scripted_world configured_env
              (inr (mkResponse 502 (inl "SyntaxError") (inr "<html>")))
              webhook_ok (inr tt))
           acme_request acme_body).
  - reflexivity.
  - reflexivity.
  - discriminate.
Defined.

(** C5. For a payload that passes validation and verification, if the
    webhook URL is unconfigured, or the delivery request does not get a
    success response (a non-2xx reply, or no reply at all), the handler
    answers 500 and never calls the email service. *)
Theorem webhook_failure_500_no_email (w : World) (request : NextRequest)
    (body : Value) :
  request_json request = inr body ->
  passes_validation body = true ->
  verified w body = true ->
  webhook_delivered w body = false ->
  (exists msg,
     response_of w request = inr (NextResponse_json msg 500)
     /\ (webhook_configured w = false -> msg = "サーバーエラーが発生しました")
     /\ (webhook_configured w = true ->
         forall webhookResponse txt,
           webhook_reply w body = inr webhookResponse ->
           resp_text webhookResponse = inr txt ->
           msg = "送信に失敗しました。もう一度お試しください。"))
  /\ existsb is_email_send (trace_of w request) = false.
Proof.
  intros Hbody Hvalid Hver Hdel.
  destruct (verified_inv w body Hver) as (r & d & Hr & Hd & Hs).
  unfold webhook_delivered in Hdel. unfold response_of, trace_of.
  destruct (webhook_configured w) eqn:Hconf.
  2:{ rewrite (path_webhook_unconfigured w request Hbody Hvalid Hr Hd Hs Hconf).
      split; [| reflexivity].
      exists msg_server_error.
      split; [reflexivity | split; [reflexivity | discriminate]]. }
  cbn [andb] in Hdel.
  destruct (webhook_reply w body) as [e | wr] eqn:Hw.
  { rewrite (path_webhook_unreachable w request Hbody Hvalid Hr Hd Hs Hconf Hw).
    split; [| reflexivity].
    exists msg_server_error.
    split; [reflexivity | split; [discriminate | intros _ wr' txt'; discriminate]]. }
  destruct (resp_text wr) as [e | txt] eqn:Htxt.
  - rewrite (path_webhook_refused_unreadable w request Hbody Hvalid Hr Hd Hs
               Hconf Hw Hdel Htxt).
    split; [| reflexivity].
    exists msg_server_error.
    split; [reflexivity | split; [discriminate |]].
    intros _ wr' txt' Hwr' Htxt'. congruence.
  - rewrite (path_webhook_refused w request Hbody Hvalid Hr Hd Hs Hconf Hw
               Hdel Htxt).
    split; [| reflexivity].
    exists msg_send_failed.
    split; [reflexivity | split; [discriminate | reflexivity]].
Qed.

Lemma webhook_failure_500_no_email_witness :
  (exists msg,
     response_of
       (scripted_world unconfigured_env verification_ok webhook_ok (inr tt))
       acme_request = inr (NextResponse_json msg 500)
     /\ (webhook_configured
           (scripted_world unconfigured_env verification_ok webhook_ok (inr tt))
         = false -> msg = "サーバーエラーが発生しました")
     /\ (webhook_configured
           (scripted_world unconfigured_env verification_ok webhook_ok (inr tt))
         = true ->
         forall webhookResponse txt,
           webhook_reply
             (scripted_world unconfigured_env verification_ok webhook_ok (inr tt))
             acme_body = inr webhookResponse ->
           resp_text webhookResponse = inr txt ->
           msg = "送信に失敗しました。もう一度お試しください。"))
  /\ existsb is_email_send
       (trace_of
          (scripted_world unconfigured_env verification_ok webhook_ok (inr tt))
          acme_request) = false.
Proof.
  apply (@webhook_failure_500_no_email
           (scripted_world unconfigured_env verification_ok webhook_ok (inr tt))
           acme_request acme_body); reflexivity.
Defined.

(** From the webhook stage on, the trace starts with the verification call
    and the webhook call, and no other webhook call follows. *)
Lemma notified_trace (w : World) (request : NextRequest) (body : Value) :
  request_json request = inr body ->
  passes_validation body = true ->
  verified w body = true ->
  webhook_configured w = true ->
  exists rest,
    trace_of w request = verification_call w body :: webhook_call w body :: rest
    /\ webhook_fields rest = [].
Proof.
  intros Hbody Hvalid Hver Hconf.
  destruct (verified_inv w body Hver) as (r & d & Hr & Hd & Hs).
  unfold trace_of.
  destruct (webhook_reply w body) as [e | wr] eqn:Hw.
  { rewrite (path_webhook_unreachable w request Hbody Hvalid Hr Hd Hs Hconf Hw).
    eexists; split; reflexivity. }
  destruct (resp_ok wr) eqn:Hok.
  - destruct (submission_email body) as [e | mail] eqn:Hm.
    { rewrite (path_email_not_built w request Hbody Hvalid Hr Hd Hs Hconf Hw Hok
                 Hm).
      eexists; split; reflexivity. }
    destruct (resend_emails_send w mail) as [e | []] eqn:Hsend.
    + rewrite (path_email_throws w request Hbody Hvalid Hr Hd Hs Hconf Hw Hok Hm
                 Hsend).
      eexists; split; reflexivity.
    + rewrite (path_email_sent w request Hbody Hvalid Hr Hd Hs Hconf Hw Hok Hm
                 Hsend).
      eexists; split; reflexivity.
  - destruct (resp_text wr) as [e | txt] eqn:Htxt.
    + rewrite (path_webhook_refused_unreadable w request Hbody Hvalid Hr Hd Hs
                 Hconf Hw Hok Htxt).
      eexists; split; reflexivity.
    + rewrite (path_webhook_refused w request Hbody Hvalid Hr Hd Hs Hconf Hw
                 Hok Htxt).
      eexists; split; reflexivity.
Qed.

Lemma notified_fields (w : World) (request : NextRequest) (body : Value) :
  request_json request = inr body ->
  passes_validation body = true ->
  verified w body = true ->
  webhook_configured w = true ->
  webhook_fields (trace_of w request) =
    [discordFields (field body "company") (field body "name")
       (field body "email") (field body "phone") (field body "message")].
Proof.
  intros Hbody Hvalid Hver Hconf.
  destruct (notified_trace w request Hbody Hvalid Hver Hconf) as (rest & -> & Hrest).
  unfold webhook_fields in *. cbn [flat_map]. rewrite Hrest. reflexivity.
Qed.

(** C6. The submission of Acme (no phone), with verification reporting
    success and the webhook and email deliveries succeeding, is answered
    [{message: "送信が完了しました"}] with status 200, and the one webhook payload
    sent lists exactly four fields: company, name, email and message. *)
Theorem acme_submission (w : World) :
  verified w acme_body = true ->
  webhook_delivered w acme_body = true ->
  email_attempt w acme_body = inr tt ->
  response_of w acme_request = inr (NextResponse_json "送信が完了しました" 200)
  /\ webhook_fields (trace_of w acme_request) =
       [[ mkField "会社名" (VStr "Acme") true;
          mkField "氏名" (VStr "田中太郎") true;
          mkField "メールアドレス" (VStr "t@example.com") false;
          mkField "お問い合わせ内容" (VStr "お見積りをお願いします") false ]]
  /\ Forall (fun fields =>
               length fields = 4%nat
               /\ ~ In "電話番号" (map field_name fields))
       (webhook_fields (trace_of w acme_request)).
Proof.
  intros Hver Hdel Hmail.
  assert (Hfields :
    webhook_fields (trace_of w acme_request) =
      [[ mkField "会社名" (VStr "Acme") true;
         mkField "氏名" (VStr "田中太郎") true;
         mkField "メールアドレス" (VStr "t@example.com") false;
         mkField "お問い合わせ内容" (VStr "お見積りをお願いします") false ]]).
  { destruct (webhook_delivered_inv w acme_body Hdel) as [Hconf _].
    now rewrite (@notified_fields w acme_request acme_body). }
  split; [| split].
  - now apply delivered_is_200 with acme_body.
  - exact Hfields.
  - rewrite Hfields. constructor; [| constructor].
    split; [reflexivity |].
    cbn. intros [H | [H | [H | [H | []]]]]; discriminate H.
Qed.

Lemma acme_submission_witness :
  response_of all_ok_world acme_request
    = inr (NextResponse_json "送信が完了しました" 200)
  /\ webhook_fields (trace_of all_ok_world acme_request) =
       [[ mkField "会社名" (VStr "Acme") true;
          mkField "氏名" (VStr "田中太郎") true;
          mkField "メールアドレス" (VStr "t@example.com") false;
          mkField "お問い合わせ内容" (VStr "お見積りをお願いします") false ]]
  /\ Forall (fun fields =>
               length fields = 4%nat
               /\ ~ In "電話番号" (map field_name fields))
       (webhook_fields (trace_of all_ok_world acme_request)).
Proof. apply (@acme_submission all_ok_world); reflexivity. Defined.

(** C7, as stated, fails: a supplied phone is sent as a field record that
    is not inline. *)
Lemma phone_field_not_inline :
  webhook_fields
    (trace_of all_ok_world (mkRequest (inr acme_body_with_phone))) =
    [[ mkField "会社名" (VStr "Acme") true;
       mkField "氏名" (VStr "田中太郎") true;
       mkField "メールアドレス" (VStr "t@example.com") false;
       mkField "電話番号" (VStr "03-1234-5678") false;
       mkField "お問い合わせ内容" (VStr "お見積りをお願いします") false ]]
  /\ exists fields phoneField,
       In fields
         (webhook_fields
            (trace_of all_ok_world (mkRequest (inr acme_body_with_phone))))
       /\ In phoneField fields
       /\ field_name phoneField = "電話番号"
       /\ field_inline phoneField <> true.
Proof.
  split; [reflexivity |].
  exists [ mkField "会社名" (VStr "Acme") true;
           mkField "氏名" (VStr "田中太郎") true;
           mkField "メールアドレス" (VStr "t@example.com") false;
           mkField "電話番号" (VStr "03-1234-5678") false;
           mkField "お問い合わせ内容" (VStr "お見積りをお願いします") false ],
         (mkField "電話番号" (VStr "03-1234-5678") false).
  split; [left; reflexivity |].
  split; [right; right; right; left; reflexivity |].
  split; [reflexivity | discriminate].
Qed.

(** C7, amended. Every payload that reaches the notification stage is sent
    in exactly one webhook call, whose field list is company, name, email,
    phone, message in this order; the phone record is there exactly once if
    phone is truthy and not at all otherwise; company and name are inline,
    email, phone and message are not. *)
Theorem webhook_field_list (w : World) (request : NextRequest) (body : Value) :
  request_json request = inr body ->
  passes_validation body = true ->
  verified w body = true ->
  webhook_configured w = true ->
  exists fields,
    webhook_fields (trace_of w request) = [fields]
    /\ fields =
         ([ mkField "会社名" (field body "company") true;
            mkField "氏名" (field body "name") true;
            mkField "メールアドレス" (field body "email") false ]
          ++ (if truthy (field body "phone")
              then [mkField "電話番号" (field body "phone") false]
              else [])
          ++ [ mkField "お問い合わせ内容" (field body "message") false ])%list
    /\ length (filter is_phone_field fields)
       = (if truthy (field body "phone") then 1%nat else 0%nat).
Proof.
  intros Hbody Hvalid Hver Hconf.
  exists (discordFields (field body "company") (field body "name")
            (field body "email") (field body "phone") (field body "message")).
  split; [exact (notified_fields w request Hbody Hvalid Hver Hconf) |].
  split; [reflexivity |].
  unfold discordFields. destruct (truthy (field body "phone")); reflexivity.
Qed.

Lemma webhook_field_list_witness :
  exists fields,
    webhook_fields
      (trace_of all_ok_world (mkRequest (inr acme_body_with_phone))) = [fields]
    /\ fields =
         ([ mkField "会社名" (field acme_body_with_phone "company") true;
            mkField "氏名" (field acme_body_with_phone "name") true;
            mkField "メールアドレス" (field acme_body_with_phone "email") false ]
          ++ (if truthy (field acme_body_with_phone "phone")
              then [mkField "電話番号" (field acme_body_with_phone "phone") false]
              else [])
          ++ [ mkField "お問い合わせ内容"
                 (field acme_body_with_phone "message") false ])%list
    /\ length (filter is_phone_field fields)
       = (if truthy (field acme_body_with_phone "phone") then 1%nat else 0%nat).
Proof.
  apply (@webhook_field_list all_ok_world
           (mkRequest (inr acme_body_with_phone)) acme_body_with_phone);
    reflexivity.
Defined.

(** ** What the response depends on *)

Lemma response_determined (w1 w2 : World) (request : NextRequest) :
  differ_only_in_secrets_and_diagnostics w1 w2 request ->
  webhook_configured w1 = webhook_configured w2 ->
  response_of w1 request = response_of w2 request.
Proof.
  intros Hsame Hconf. unfold response_of.
  destruct (request_json request) as [e | body] eqn:Hbody.
  { now rewrite !(path_parse_throws _ request Hbody). }
  destruct (Hsame body Hbody) as [Hver Hdel]. clear Hsame.
  destruct (get_prop body "company") as [e | company] eqn:Hcompany.
  { now rewrite !(path_unreadable_body _ request Hbody Hcompany). }
  pose proof (readable_body body "company" Hcompany) as Hget.
  destruct (passes_validation body) eqn:Hvalid.
  2:{ now rewrite !(path_fails_validation _ request Hbody Hget Hvalid). }
  destruct (verification_reply w1 body) as [e1 | r1] eqn:Hr1;
    destruct (verification_reply w2 body) as [e2 | r2] eqn:Hr2;
    try contradiction.
  { now rewrite (path_verification_unreachable w1 request Hbody Hvalid Hr1),
      (path_verification_unreachable w2 request Hbody Hvalid Hr2). }
  cbn [agree] in Hver. unfold same_verdict in Hver.
  destruct (resp_json r1) as [e1 | d1] eqn:Hd1;
    destruct (resp_json r2) as [e2 | d2] eqn:Hd2;
    try contradiction.
  { now rewrite (path_verification_unparseable w1 request Hbody Hvalid Hr1 Hd1),
      (path_verification_unparseable w2 request Hbody Hvalid Hr2 Hd2). }
  cbn [agree] in Hver.
  destruct (get_prop d1 "success") as [e1 | s1] eqn:Hs1;
    destruct (get_prop d2 "success") as [e2 | s2] eqn:Hs2;
    try contradiction.
  { now rewrite (path_verification_no_object w1 request Hbody Hvalid Hr1 Hd1 Hs1),
      (path_verification_no_object w2 request Hbody Hvalid Hr2 Hd2 Hs2). }
  cbn [agree] in Hver. subst s2.
  destruct (truthy s1) eqn:Ht.
  2:{ now rewrite
        (path_verification_rejected w1 request Hbody Hvalid Hr1 Hd1 Hs1 Ht),
        (path_verification_rejected w2 request Hbody Hvalid Hr2 Hd2 Hs2 Ht). }
  assert (Hrep1 : reports_success d1 = true)
    by (unfold reports_success; now rewrite Hs1).
  assert (Hrep2 : reports_success d2 = true)
    by (unfold reports_success; now rewrite Hs2).
  destruct (webhook_configured w1) eqn:Hc1; symmetry in Hconf.
  2:{ now rewrite
        (path_webhook_unconfigured w1 request Hbody Hvalid Hr1 Hd1 Hrep1 Hc1),
        (path_webhook_unconfigured w2 request Hbody Hvalid Hr2 Hd2 Hrep2 Hconf). }
  destruct (webhook_reply w1 body) as [e1 | wr1] eqn:Hw1;
    destruct (webhook_reply w2 body) as [e2 | wr2] eqn:Hw2;
    try contradiction.
  { now rewrite
      (path_webhook_unreachable w1 request Hbody Hvalid Hr1 Hd1 Hrep1 Hc1 Hw1),
      (path_webhook_unreachable w2 request Hbody Hvalid Hr2 Hd2 Hrep2 Hconf Hw2). }
  destruct Hdel as [Hstatus Htext].
  assert (Hokeq : resp_ok wr1 = resp_ok wr2)
    by (unfold resp_ok; now rewrite Hstatus).
  destruct (resp_ok wr1) eqn:Hok1; symmetry in Hokeq.
  - transitivity (@inr exn _ done_200).
    + now apply delivered_is_200 with body;
        [ | | unfold verified; rewrite Hr1, Hd1
          | unfold webhook_delivered; rewrite Hc1, Hw1 ].
    + symmetry.
      now apply delivered_is_200 with body;
        [ | | unfold verified; rewrite Hr2, Hd2
          | unfold webhook_delivered; rewrite Hconf, Hw2 ].
  - destruct (resp_text wr1) as [t1 | t1] eqn:Ht1;
      destruct (resp_text wr2) as [t2 | t2] eqn:Ht2;
      try contradiction.
    + now rewrite
        (path_webhook_refused_unreadable w1 request Hbody Hvalid Hr1 Hd1 Hrep1
           Hc1 Hw1 Hok1 Ht1),
        (path_webhook_refused_unreadable w2 request Hbody Hvalid Hr2 Hd2 Hrep2
           Hconf Hw2 Hokeq Ht2).
    + now rewrite
        (path_webhook_refused w1 request Hbody Hvalid Hr1 Hd1 Hrep1 Hc1 Hw1
           Hok1 Ht1),
        (path_webhook_refused w2 request Hbody Hvalid Hr2 Hd2 Hrep2 Hconf Hw2
           Hokeq Ht2).
Qed.

Lemma response_message_fixed (w : World) (request : NextRequest) :
  exists r, response_of w request = inr r /\ In (message r) fixed_messages.
Proof.
  unfold response_of.
  destruct (POST_path w request); eexists; (split; [reflexivity |]);
    cbn; auto 6.
Qed.

(** C8, as stated, fails: two runs that differ only in the webhook URL
    (a URL in one, the empty string or nothing in the other) are answered
    differently. *)
Lemma webhook_url_changes_response :
  differ_only_in_secrets_and_diagnostics all_ok_world empty_url_world
    acme_request
  /\ differ_only_in_secrets_and_diagnostics all_ok_world unconfigured_world
       acme_request
  /\ response_of all_ok_world acme_request
     = inr (NextResponse_json "送信が完了しました" 200)
  /\ response_of empty_url_world acme_request
     = inr (NextResponse_json "サーバーエラーが発生しました" 500)
  /\ response_of unconfigured_world acme_request
     = inr (NextResponse_json "サーバーエラーが発生しました" 500)
  /\ response_of all_ok_world acme_request
     <> response_of empty_url_world acme_request.
Proof.
  split; [| split].
  - intros body Hbody. cbn in Hbody. injection Hbody as <-.
    cbn. repeat split.
  - intros body Hbody. cbn in Hbody. injection Hbody as <-.
    cbn. repeat split.
  - repeat split; discriminate.
Qed.

(** C8, amended. The message of every response is one of five fixed
    strings, and the response depends on the secrets only through whether
    the webhook URL is configured: two runs on the same request that differ
    only in the secrets or in downstream diagnostic detail (verification
    error codes, webhook response bodies, thrown exceptions), and in both or
    neither of which the webhook URL is configured, get the same body and
    status. *)
Theorem response_hides_secrets_and_diagnostics :
  (length fixed_messages = 5%nat /\ NoDup fixed_messages)
  /\ (forall w request,
        exists r, response_of w request = inr r /\ In (message r) fixed_messages)
  /\ (forall w1 w2 request,
        differ_only_in_secrets_and_diagnostics w1 w2 request ->
        webhook_configured w1 = webhook_configured w2 ->
        response_of w1 request = response_of w2 request).
Proof.
  split; [| split].
  - split; [reflexivity |].
    repeat constructor; cbn; intuition discriminate.
  - exact response_message_fixed.
  - exact response_determined.
Qed.

Lemma response_hides_secrets_and_diagnostics_witness :
  response_of
    (scripted_world configured_env verification_rejects webhook_ok (inr tt))
    acme_request
  = response_of other_secrets_world acme_request.
Proof.
  apply (proj2 (proj2 response_hides_secrets_and_diagnostics)).
  - intros body Hbody. cbn in Hbody. injection Hbody as <-.
    cbn. repeat split.
  - reflexivity.
Defined.

(** ** The verification status *)

Lemma notification_iff_success (w : World) (request : NextRequest)
    (body : Value) (turnstileResponse : Response) (turnstileData : Value) :
  request_json request = inr body ->
  passes_validation body = true ->
  verification_reply w body = inr turnstileResponse ->
  resp_json turnstileResponse = inr turnstileData ->
  reached_notification (trace_of w request) = reports_success turnstileData.
Proof.
  intros Hbody Hvalid Hr Hd.
  destruct (reports_success turnstileData) eqn:Hrep.
  - destruct (webhook_configured w) eqn:Hconf.
    + assert (Hver : verified w body = true)
        by (unfold verified; now rewrite Hr, Hd).
      destruct (notified_trace w request Hbody Hvalid Hver Hconf)
        as (rest & -> & _).
      reflexivity.
    + unfold trace_of.
      now rewrite (path_webhook_unconfigured w request Hbody Hvalid Hr Hd Hrep
                     Hconf).
  - unfold reports_success in Hrep. unfold trace_of.
    destruct (get_prop turnstileData "success") as [e | s] eqn:Hs.
    + now rewrite (path_verification_no_object w request Hbody Hvalid Hr Hd Hs).
    + now rewrite (path_verification_rejected w request Hbody Hvalid Hr Hd Hs
                     Hrep).
Qed.

Lemma agree_refl {A} (R : A -> A -> Prop) (x : exn + A) :
  (forall a, R a a) -> agree R x x.
Proof. intros HR. destruct x; cbn; auto. Qed.

Lemma status_is_diagnostic (w : World) (st : Z) (request : NextRequest) :
  differ_only_in_secrets_and_diagnostics (with_verification_status w st) w
    request.
Proof.
  intros body _. split.
  - unfold verification_reply. cbn.
    destruct (net_fetch w turnstileVerifyUrl _) as [e | r]; cbn; [exact I |].
    unfold same_verdict. cbn. apply agree_refl. intros d.
    now apply agree_refl.
  - unfold webhook_reply. cbn. apply agree_refl. intros r.
    split; [reflexivity |]. now apply agree_refl.
Qed.

(** C10. The HTTP status of the verification reply is not inspected: for
    a payload that reaches the verification stage and gets a reply with a
    JSON body, the run goes on to the notification stage if and only if that
    body has a truthy [success] field, whatever the status of the reply;
    giving the reply any other status changes neither this nor the
    response. *)
Theorem verification_status_not_inspected (w : World) (request : NextRequest)
    (body : Value) (turnstileResponse : Response) (turnstileData : Value) :
  request_json request = inr body ->
  passes_validation body = true ->
  verification_reply w body = inr turnstileResponse ->
  resp_json turnstileResponse = inr turnstileData ->
  (reached_notification (trace_of w request) = true
   <-> reports_success turnstileData = true)
  /\ forall st,
       reached_notification
         (trace_of (with_verification_status w st) request)
       = reached_notification (trace_of w request)
       /\ response_of (with_verification_status w st) request
          = response_of w request.
Proof.
  intros Hbody Hvalid Hr Hd.
  pose proof (notification_iff_success w request Hbody Hvalid Hr Hd) as Hw.
  split; [now rewrite Hw |].
  intros st. split.
  - rewrite Hw.
    apply (@notification_iff_success (with_verification_status w st) request
             body (set_status st turnstileResponse) turnstileData);
      try assumption.
    unfold verification_reply in *. cbn. now rewrite Hr.
  - apply response_determined.
    + apply status_is_diagnostic.
    + reflexivity.
Qed.

Lemma verification_status_not_inspected_witness :
  (reached_notification
     (trace_of
        (scripted_world configured_env forbidden_but_success webhook_ok (inr tt))
        acme_request) = true
   <-> reports_success (VObj [("success", VBool true)]) = true)
  /\ forall st,
       reached_notification
         (trace_of
            (with_verification_status
               (scripted_world configured_env forbidden_but_success webhook_ok
                  (inr tt)) st)
            acme_request)
       = reached_notification
           (trace_of
              (scripted_world configured_env forbidden_but_success webhook_ok
                 (inr tt))
              acme_request)
       /\ response_of
            (with_verification_status
               (scripted_world configured_env forbidden_but_success webhook_ok
                  (inr tt)) st)
            acme_request
          = response_of
              (scripted_world configured_env forbidden_but_success webhook_ok
                 (inr tt))
              acme_request.
Proof.
  apply (@verification_status_not_inspected
           (scripted_world configured_env forbidden_but_success webhook_ok
              (inr tt))
           acme_request acme_body
           (json_reply 403 (VObj [("success", VBool true)]))
           (VObj [("success", VBool true)])); reflexivity.
Defined.

Example forbidden_but_success_is_200 :
  resp_ok (json_reply 403 (VObj [("success", VBool true)])) = false
  /\ response_of
       (scripted_world configured_env forbidden_but_success webhook_ok (inr tt))
       acme_request
     = inr (NextResponse_json "送信が完了しました" 200).
Proof. split; reflexivity. Qed.

(** ** More on the handler: stages, calls and logs *)

Lemma unreadable_fails_validation (body : Value) (key : string) (e : exn) :
  get_prop body key = inl e -> passes_validation body = false.
Proof. destruct body; try discriminate; reflexivity. Qed.

Ltac use_equations :=
  repeat match goal with
  | H : ?x = ?y |- context [?x] =>
      lazymatch x with
      | match _ with _ => _ end => fail
      | _ => rewrite H
      end
  end.

(** Evaluate the stage predicates along the path at hand. *)
Ltac stage_values :=
  unfold request_valid, request_verified, request_notified, request_email,
    full_call_sequence;
  use_equations;
  try match goal with
  | H : get_prop ?b _ = inl _ |- context [passes_validation ?b] =>
      rewrite (unreadable_fails_validation b _ H)
  end;
  unfold verified; use_equations;
  unfold reports_success; use_equations;
  unfold webhook_delivered; use_equations;
  cbn [andb orb negb].

(** X1. The handler answers 200 exactly when the submission was validated,
    verified and delivered to the webhook. *)
Theorem success_iff_notified (w : World) (request : NextRequest) :
  exists r,
    response_of w request = inr r
    /\ (status r =? 200)%Z = request_notified w request.
Proof.
  unfold response_of.
  destruct (POST_path w request); eexists; (split; [reflexivity |]);
    stage_values; reflexivity.
Qed.

(** X2. Each service is called exactly when the stages before it passed: the
    verification service when the payload is valid, the webhook when the
    verification accepted and a webhook URL is configured, the email service
    when the webhook took the notification and the template could be
    evaluated. *)
Theorem calls_follow_stages (w : World) (request : NextRequest) :
  existsb is_verification_call (trace_of w request) = request_valid request
  /\ existsb is_webhook_call (trace_of w request)
     = request_verified w request && webhook_configured w
  /\ existsb is_email_send (trace_of w request)
     = request_notified w request
       && match request_email request with Some _ => true | None => false end.
Proof.
  unfold trace_of.
  destruct (POST_path w request); stage_values; repeat split.
Qed.

(** X3. The outbound calls of a run are an initial part of the sequence
    verification, webhook, email: at most one call to each service, never
    out of order. *)
Theorem calls_in_order (w : World) (request : NextRequest) :
  exists n,
    outbound_calls (trace_of w request)
    = firstn n (full_call_sequence w request).
Proof.
  unfold trace_of.
  destruct (POST_path w request); stage_values.
  - now exists 0%nat.
  - now exists 0%nat.
  - now exists 0%nat.
  - now exists 1%nat.
  - now exists 1%nat.
  - now exists 1%nat.
  - now exists 1%nat.
  - now exists 1%nat.
  - now exists 2%nat.
  - now exists 2%nat.
  - now exists 2%nat.
  - now exists 2%nat.
  - now exists 3%nat.
  - now exists 3%nat.
Qed.

(** X4. The handler always answers, with one of five (message, status) pairs:
    the status is 400 for the two client messages, 500 for the two server
    messages and 200 for the success message. *)
Theorem response_is_fixed_pair (w : World) (request : NextRequest) :
  exists r, response_of w request = inr r /\ In r fixed_responses.
Proof.
  unfold response_of.
  destruct (POST_path w request); eexists; (split; [reflexivity |]);
    cbn; auto 6.
Qed.

(** X5. What is logged: nothing when the validation fails, one line for every
    other failure, and on success one line exactly when the email attempt
    threw. *)
Theorem console_error_count (w : World) (request : NextRequest) :
  exists r,
    response_of w request = inr r
    /\ length (console_errors (trace_of w request))
       = if String.eqb (message r) "必須項目をすべて入力してください" then 0%nat
         else if (status r =? 200)%Z
              then (if request_email_failed w request then 1%nat else 0%nat)
              else 1%nat.
Proof.
  unfold response_of, trace_of.
  destruct (POST_path w request); eexists; (split; [reflexivity |]);
    unfold request_email_failed, email_attempt; use_equations; reflexivity.
Qed.

Lemma env_truthy_inv (v : option string) :
  env_truthy v = true -> v = Some (env_string v) /\ env_string v <> "".
Proof.
  destruct v as [s |]; [| discriminate]. cbn.
  destruct (String.eqb_spec s ""); [discriminate |]. now split.
Qed.

(** X6. Every [fetch] of a run is a JSON POST, and goes where it should: the
    verification secret and the submitted token only to the fixed
    verification endpoint, the notification built from the submission only
    to the configured, non-empty webhook URL. *)
Theorem fetches_go_where_allowed (w : World) (request : NextRequest) :
  Forall (fetch_allowed w request) (trace_of w request).
Proof.
  unfold trace_of.
  destruct (POST_path w request);
    repeat (apply Forall_cons; [| try apply Forall_nil]);
    try apply Forall_nil; try exact I; cbn;
    unfold request_body; use_equations;
    repeat (split; try reflexivity);
    try (match goal with
         | H : webhook_configured _ = true |- _ =>
             destruct (env_truthy_inv _ H) as [Hsome Hne]
         end; assumption).
Qed.

(** X7. Nothing of [process.env] is logged or answered: two runs on the same
    request in worlds that differ in the values of the secrets, but whose
    services give the same replies and whose webhook URL is configured in
    both or in neither, log the same lines and answer alike. *)
Theorem logs_hide_secrets (w1 w2 : World) (request : NextRequest) :
  same_replies w1 w2 request ->
  webhook_configured w1 = webhook_configured w2 ->
  console_errors (trace_of w1 request) = console_errors (trace_of w2 request)
  /\ response_of w1 request = response_of w2 request.
Proof.
  intros Hsame Hconf. unfold response_of, trace_of.
  destruct (request_json request) as [e | body] eqn:Hbody.
  { now rewrite !(path_parse_throws _ request Hbody). }
  destruct (Hsame body Hbody) as (Hver & Hdel & Hmail). clear Hsame.
  destruct (get_prop body "company") as [e | company] eqn:Hcompany.
  { now rewrite !(path_unreadable_body _ request Hbody Hcompany). }
  pose proof (readable_body body "company" Hcompany) as Hget.
  destruct (passes_validation body) eqn:Hvalid.
  2:{ now rewrite !(path_fails_validation _ request Hbody Hget Hvalid). }
  destruct (verification_reply w2 body) as [e | r] eqn:Hr.
  { now rewrite (path_verification_unreachable w1 request Hbody Hvalid Hver),
      (path_verification_unreachable w2 request Hbody Hvalid Hr). }
  destruct (resp_json r) as [e | d] eqn:Hd.
  { now rewrite (path_verification_unparseable w1 request Hbody Hvalid Hver Hd),
      (path_verification_unparseable w2 request Hbody Hvalid Hr Hd). }
  destruct (get_prop d "success") as [e | s] eqn:Hs.
  { now rewrite (path_verification_no_object w1 request Hbody Hvalid Hver Hd Hs),
      (path_verification_no_object w2 request Hbody Hvalid Hr Hd Hs). }
  destruct (truthy s) eqn:Ht.
  2:{ now rewrite
        (path_verification_rejected w1 request Hbody Hvalid Hver Hd Hs Ht),
        (path_verification_rejected w2 request Hbody Hvalid Hr Hd Hs Ht). }
  assert (Hrep : reports_success d = true)
    by (unfold reports_success; now rewrite Hs).
  destruct (webhook_configured w2) eqn:Hc2.
  2:{ now rewrite
        (path_webhook_unconfigured w1 request Hbody Hvalid Hver Hd Hrep Hconf),
        (path_webhook_unconfigured w2 request Hbody Hvalid Hr Hd Hrep Hc2). }
  destruct (webhook_reply w2 body) as [e | wr] eqn:Hw.
  { now rewrite
      (path_webhook_unreachable w1 request Hbody Hvalid Hver Hd Hrep Hconf Hdel),
      (path_webhook_unreachable w2 request Hbody Hvalid Hr Hd Hrep Hc2 Hw). }
  destruct (resp_ok wr) eqn:Hok.
  2:{ destruct (resp_text wr) as [e | txt] eqn:Htxt.
      - now rewrite
          (path_webhook_refused_unreadable w1 request Hbody Hvalid Hver Hd Hrep
             Hconf Hdel Hok Htxt),
          (path_webhook_refused_unreadable w2 request Hbody Hvalid Hr Hd Hrep
             Hc2 Hw Hok Htxt).
      - now rewrite
          (path_webhook_refused w1 request Hbody Hvalid Hver Hd Hrep Hconf Hdel
             Hok Htxt),
          (path_webhook_refused w2 request Hbody Hvalid Hr Hd Hrep Hc2 Hw Hok
             Htxt). }
  unfold email_attempt in Hmail.
  destruct (submission_email body) as [e | mail] eqn:Hm.
  { now rewrite
      (path_email_not_built w1 request Hbody Hvalid Hver Hd Hrep Hconf Hdel Hok
         Hm),
      (path_email_not_built w2 request Hbody Hvalid Hr Hd Hrep Hc2 Hw Hok Hm). }
  destruct (resend_emails_send w2 mail) as [e | []] eqn:Hsend.
  - now rewrite
      (path_email_throws w1 request Hbody Hvalid Hver Hd Hrep Hconf Hdel Hok Hm
         Hmail),
      (path_email_throws w2 request Hbody Hvalid Hr Hd Hrep Hc2 Hw Hok Hm Hsend).
  - now rewrite
      (path_email_sent w1 request Hbody Hvalid Hver Hd Hrep Hconf Hdel Hok Hm
         Hmail),
      (path_email_sent w2 request Hbody Hvalid Hr Hd Hrep Hc2 Hw Hok Hm Hsend).
Qed.

(** X8. A body that is valid JSON but not an object: [null] cannot be
    destructured and is answered 500 by the catch-all, without any call;
    a boolean, number, string or array has none of the fields and is
    answered 400 without any effect. *)
Theorem non_object_body (w : World) (request : NextRequest) (body : Value) :
  request_json request = inr body ->
  (forall props, body <> VObj props) ->
  response_of w request
    = inr (match body with
           | VUndefined | VNull =>
               NextResponse_json "サーバーエラーが発生しました" 500
           | _ => NextResponse_json "必須項目をすべて入力してください" 400
           end)
  /\ outbound_calls (trace_of w request) = []
  /\ (body <> VNull -> body <> VUndefined -> trace_of w request = []).
Proof.
  intros Hbody Hobj. unfold response_of, trace_of.
  destruct body as [| | b | f | s | items | props].
  - rewrite (@path_unreadable_body w request VUndefined _ Hbody eq_refl).
    repeat split. congruence.
  - rewrite (@path_unreadable_body w request VNull _ Hbody eq_refl).
    repeat split. congruence.
  - now rewrite (@path_fails_validation w request _ Hbody
                   (fun key => eq_refl) eq_refl).
  - now rewrite (@path_fails_validation w request _ Hbody
                   (fun key => eq_refl) eq_refl).
  - now rewrite (@path_fails_validation w request _ Hbody
                   (fun key => eq_refl) eq_refl).
  - now rewrite (@path_fails_validation w request _ Hbody
                   (fun key => eq_refl) eq_refl).
  - now destruct (Hobj props).
Qed.

Lemma non_object_body_witness :
  response_of all_ok_world (mkRequest (inr (VArr [VStr "Acme"])))
    = inr (NextResponse_json "必須項目をすべて入力してください" 400)
  /\ outbound_calls
       (trace_of all_ok_world (mkRequest (inr (VArr [VStr "Acme"])))) = []
  /\ (VArr [VStr "Acme"] <> VNull -> VArr [VStr "Acme"] <> VUndefined ->
      trace_of all_ok_world (mkRequest (inr (VArr [VStr "Acme"]))) = []).
Proof.
  apply (@non_object_body all_ok_world (mkRequest (inr (VArr [VStr "Acme"])))
           (VArr [VStr "Acme"])).
  - reflexivity.
  - discriminate.
Defined.

Lemma submission_email_inv (body : Value) (mail : Email) :
  submission_email body = inr mail ->
  mail =
    mkEmail "株式会社ファンエクス <noreply@funex.co.jp>"
      (field body "email")
      "お問い合わせを受け付けました - 株式会社ファンエクス"
      (mkEmailHtml (field body "name") (field body "company")
         (field body "name") (field body "email")
         (if truthy (field body "phone")
          then Some (field body "phone") else None)
         (field body "message")).
Proof.
  unfold submission_email, confirmationEmail.
  destruct (existsb to_string_throws _); [discriminate |].
  now intros [= <-].
Qed.

(** X9. A confirmation email that is sent goes to the address of the
    submission, as it was typed, from the fixed sender and with the fixed
    subject, and echoes the submitted values; its phone line is there
    exactly for a truthy phone. *)
Theorem email_echoes_submission (w : World) (request : NextRequest)
    (mail : Email) :
  In (EvEmailSend mail) (trace_of w request) ->
  exists body,
    request_json request = inr body
    /\ mail_to mail = field body "email"
    /\ mail_from mail = "株式会社ファンエクス <noreply@funex.co.jp>"
    /\ mail_subject mail = "お問い合わせを受け付けました - 株式会社ファンエクス"
    /\ mail_html mail =
         mkEmailHtml (field body "name") (field body "company")
           (field body "name") (field body "email")
           (if truthy (field body "phone")
            then Some (field body "phone") else None)
           (field body "message").
Proof.
  unfold trace_of.
  destruct (POST_path w request) as
    [ | | | | | | | | | | | |
      body r d wr mail' e Hbody Hvalid Hr Hd Hs Hc Hw Hok Hm Hsend
    | body r d wr mail' Hbody Hvalid Hr Hd Hs Hc Hw Hok Hm Hsend ];
    cbn; intros Hin;
    repeat (destruct Hin as [Hin | Hin]; try discriminate Hin);
    try contradiction;
    injection Hin as <-; exists body;
    rewrite (submission_email_inv body Hm); repeat split; assumption.
Qed.

Lemma email_echoes_submission_witness :
  exists body,
    request_json acme_request = inr body
    /\ mail_to acme_mail = field body "email"
    /\ mail_from acme_mail = "株式会社ファンエクス <noreply@funex.co.jp>"
    /\ mail_subject acme_mail
       = "お問い合わせを受け付けました - 株式会社ファンエクス"
    /\ mail_html acme_mail =
         mkEmailHtml (field body "name") (field body "company")
           (field body "name") (field body "email")
           (if truthy (field body "phone")
            then Some (field body "phone") else None)
           (field body "message").
Proof.
  apply (@email_echoes_submission all_ok_world acme_request acme_mail).
  cbn. right. right. left. reflexivity.
Defined.

(** X10. Failures stop the pipeline: a run answered 400 has called neither the
    webhook nor the email service, and a run answered 500 has not called the
    email service; so a confirmation email is only ever sent for a
    submission that is answered 200. *)
Theorem failures_stop_the_pipeline (w : World) (request : NextRequest) :
  exists r,
    response_of w request = inr r
    /\ (status r = 400%Z ->
        existsb is_webhook_call (trace_of w request) = false
        /\ existsb is_email_send (trace_of w request) = false)
    /\ (status r = 500%Z ->
        existsb is_email_send (trace_of w request) = false)
    /\ (existsb is_email_send (trace_of w request) = true ->
        status r = 200%Z).
Proof.
  unfold response_of, trace_of.
  destruct (POST_path w request); eexists; (split; [reflexivity |]);
    cbn; repeat split; try reflexivity; intros; discriminate.
Qed.

Lemma logs_hide_secrets_witness :
  console_errors
    (trace_of
       (scripted_world configured_env verification_rejects webhook_ok (inr tt))
       acme_request)
  = console_errors
      (trace_of
         (scripted_world rotated_env verification_rejects webhook_ok (inr tt))
         acme_request)
  /\ response_of
       (scripted_world configured_env verification_rejects webhook_ok (inr tt))
       acme_request
     = response_of
         (scripted_world rotated_env verification_rejects webhook_ok (inr tt))
         acme_request.
Proof.
  apply (@logs_hide_secrets
           (scripted_world configured_env verification_rejects webhook_ok
              (inr tt))
           (scripted_world rotated_env verification_rejects webhook_ok (inr tt))
           acme_request).
  - intros body _. repeat split.
  - reflexivity.
Defined.

(** X11. What the services say about a failure reaches the operators' log: a
    rejected verification logs the [error-codes] member of the reply, a
    refused notification logs the body of the webhook's response. *)
Theorem diagnostics_are_logged (w : World) (request : NextRequest)
    (body : Value) :
  request_json request = inr body ->
  passes_validation body = true ->
  (forall turnstileResponse turnstileData,
     verification_reply w body = inr turnstileResponse ->
     resp_json turnstileResponse = inr turnstileData ->
     turnstileData <> VNull -> turnstileData <> VUndefined ->
     reports_success turnstileData = false ->
     console_errors (trace_of w request)
     = [EvConsoleError "Turnstile verification failed:"
          (LogValue (field turnstileData "error-codes"))])
  /\ (forall webhookResponse txt,
        verified w body = true ->
        webhook_configured w = true ->
        webhook_reply w body = inr webhookResponse ->
        resp_ok webhookResponse = false ->
        resp_text webhookResponse = inr txt ->
        console_errors (trace_of w request)
        = [EvConsoleError "Discord webhook failed:" (LogText txt)]).
Proof.
  intros Hbody Hvalid. unfold trace_of. split.
  - intros r d Hr Hd Hnull Hundef Hrep. unfold reports_success in Hrep.
    destruct (get_prop d "success") as [e | s] eqn:Hs.
    + destruct d; try discriminate Hs; contradiction.
    + now rewrite (path_verification_rejected w request Hbody Hvalid Hr Hd Hs
                     Hrep).
  - intros wr txt Hver Hconf Hw Hok Htxt.
    destruct (verified_inv w body Hver) as (r & d & Hr & Hd & Hs).
    now rewrite (path_webhook_refused w request Hbody Hvalid Hr Hd Hs Hconf Hw
                   Hok Htxt).
Qed.

Lemma diagnostics_are_logged_witness :
  (forall turnstileResponse turnstileData,
     verification_reply
       (scripted_world configured_env verification_ok webhook_refuses (inr tt))
       acme_body = inr turnstileResponse ->
     resp_json turnstileResponse = inr turnstileData ->
     turnstileData <> VNull -> turnstileData <> VUndefined ->
     reports_success turnstileData = false ->
     console_errors
       (trace_of
          (scripted_world configured_env verification_ok webhook_refuses
             (inr tt))
          acme_request)
     = [EvConsoleError "Turnstile verification failed:"
          (LogValue (field turnstileData "error-codes"))])
  /\ (forall webhookResponse txt,
        verified
          (scripted_world configured_env verification_ok webhook_refuses
             (inr tt))
          acme_body = true ->
        webhook_configured
          (scripted_world configured_env verification_ok webhook_refuses
             (inr tt)) = true ->
        webhook_reply
          (scripted_world configured_env verification_ok webhook_refuses
             (inr tt))
          acme_body = inr webhookResponse ->
        resp_ok webhookResponse = false ->
        resp_text webhookResponse = inr txt ->
        console_errors
          (trace_of
             (scripted_world configured_env verification_ok webhook_refuses
                (inr tt))
             acme_request)
        = [EvConsoleError "Discord webhook failed:" (LogText txt)]).
Proof.
  apply (@diagnostics_are_logged
           (scripted_world configured_env verification_ok webhook_refuses
              (inr tt))
           acme_request acme_body); reflexivity.
Defined.

Example refused_notification_is_logged :
  POST (scripted_world configured_env verification_ok webhook_refuses (inr tt))
    acme_request
  = (inr send_failed_500,
     [ verification_call
         (scripted_world configured_env verification_ok webhook_refuses
            (inr tt)) acme_body;
       webhook_call
         (scripted_world configured_env verification_ok webhook_refuses
            (inr tt)) acme_body;
       EvConsoleError "Discord webhook failed:" (LogText "rate limited") ]).
Proof. reflexivity. Qed.

(** ** The page script *)

Lemma script_contains_remove (classList : list string) (token t : string) :
  Script.contains (Script.remove classList token) t
  = Script.contains classList t && negb (String.eqb token t).
Proof.
  unfold Script.contains, Script.remove.
  induction classList as [| c rest IH]; [reflexivity |]. cbn.
  destruct (String.eqb_spec token c) as [-> | Hne]; cbn.
  - rewrite IH. destruct (String.eqb_spec t c) as [-> | Htc]; cbn.
    + rewrite String.eqb_refl. cbn. now rewrite andb_false_r.
    + reflexivity.
  - rewrite IH. destruct (String.eqb_spec t c) as [-> | Htc]; cbn.
    + destruct (String.eqb_spec token c); [contradiction | reflexivity].
    + reflexivity.
Qed.

Lemma script_contains_app (classList : list string) (token t : string) :
  Script.contains (classList ++ [token]) t
  = Script.contains classList t || String.eqb t token.
Proof.
  unfold Script.contains. rewrite existsb_app. cbn. now rewrite orb_false_r.
Qed.

(** [classList.toggle(token)] flips the presence of [token] and of no
    other token. *)
Lemma script_contains_toggle (classList : list string) (token t : string) :
  Script.contains (Script.toggle classList token) t
  = if String.eqb token t
    then negb (Script.contains classList token)
    else Script.contains classList t.
Proof.
  unfold Script.toggle.
  destruct (Script.contains classList token) eqn:Hc.
  - rewrite script_contains_remove.
    destruct (String.eqb_spec token t) as [<- | Hne]; cbn.
    + now rewrite andb_false_r.
    + now rewrite andb_true_r.
  - rewrite script_contains_app.
    destruct (String.eqb_spec token t) as [<- | Hne]; cbn.
    + now rewrite String.eqb_refl, orb_true_r.
    + destruct (String.eqb_spec t token) as [-> | _]; [contradiction |].
      now rewrite orb_false_r.
Qed.

Lemma script_run_cons (p : Script.Page) (ev : Script.DomEvent)
    (evs : list Script.DomEvent) :
  Script.run p (ev :: evs) = Script.run (Script.page (Script.dispatch p ev)) evs.
Proof. reflexivity. Qed.

Lemma script_run_app (p : Script.Page) (evs evs' : list Script.DomEvent) :
  Script.run p (evs ++ evs') = Script.run (Script.run p evs) evs'.
Proof. unfold Script.run. apply fold_left_app. Qed.

Lemma script_dispatch_consistent (p : Script.Page) (ev : Script.DomEvent) :
  Script.menu_consistent p ->
  Script.menu_consistent (Script.page (Script.dispatch p ev)).
Proof.
  intros (menu & btn & Hmenu & Hbtn & Hsync & Hlock).
  destruct ev as [| | scrollY | href found pageYOffset]; cbn.
  - unfold Script.menuBtn_click. rewrite Hmenu, Hbtn. cbn.
    eexists _, _. repeat split.
    rewrite !script_contains_toggle. cbn. now rewrite Hsync.
  - unfold Script.menu_link_click. rewrite Hmenu, Hbtn. cbn.
    eexists _, _. repeat split.
    + now rewrite !script_contains_remove, !andb_false_r.
    + now rewrite script_contains_remove, andb_false_r.
  - unfold Script.window_scroll.
    destruct (Script.navbar p); cbn; now exists menu, btn.
  - unfold Script.anchor_click.
    destruct (String.eqb href "#"); cbn; [now exists menu, btn |].
    destruct found as [e | [elementPosition |]]; cbn;
      try (now exists menu, btn).
    rewrite Hmenu, Hbtn. cbn. eexists _, _. repeat split.
    + now rewrite !script_contains_remove, !andb_false_r.
    + now rewrite script_contains_remove, andb_false_r.
Qed.

(** X12. On a page that has the menu and its button, with the two in step and
    the page scroll locked exactly while the menu is open, every sequence of
    button clicks, link clicks, scrolls and anchor clicks leaves it so. *)
Theorem script_menu_stays_consistent (p : Script.Page)
    (evs : list Script.DomEvent) :
  Script.menu_consistent p ->
  Script.menu_consistent (Script.run p evs).
Proof.
  revert p. induction evs as [| ev evs IH]; intros p Hp; [exact Hp |].
  rewrite script_run_cons. apply IH. now apply script_dispatch_consistent.
Qed.

Lemma script_closed_page_consistent : Script.menu_consistent Script.closed_page.
Proof. exists ["mobile-menu"], ["menu-btn"]. repeat split. Qed.

Lemma script_menu_stays_consistent_witness :
  Script.menu_consistent
    (Script.run Script.closed_page
       [Script.MenuBtnClick;
        Script.WindowScroll (Script.number 120);
        Script.AnchorClick "#contact" (inr (Some (Script.number 900)))
          (Script.number 120);
        Script.MenuBtnClick]).
Proof.
  apply (@script_menu_stays_consistent Script.closed_page
           [Script.MenuBtnClick;
            Script.WindowScroll (Script.number 120);
            Script.AnchorClick "#contact" (inr (Some (Script.number 900)))
              (Script.number 120);
            Script.MenuBtnClick]).
  exact script_closed_page_consistent.
Defined.

(** X13. A click on the menu button opens a closed menu and closes an open one,
    locks the page scroll exactly when the menu is then open, and touches no
    class but [active]; a second click brings the menu back to where it
    was. *)
Theorem script_menu_button_toggles (p : Script.Page) (menu btn : list string) :
  Script.mobileMenu p = Some menu ->
  Script.menuBtn p = Some btn ->
  let q := Script.page (Script.menuBtn_click p) in
  Script.menu_open q = negb (Script.menu_open p)
  /\ Script.body_overflow q = (if Script.menu_open q then "hidden" else "")
  /\ (forall t, t <> "active" ->
      option_map (fun c => Script.contains c t) (Script.mobileMenu q)
        = Some (Script.contains menu t)
      /\ option_map (fun c => Script.contains c t) (Script.menuBtn q)
         = Some (Script.contains btn t))
  /\ Script.menu_open (Script.page (Script.menuBtn_click q))
     = Script.menu_open p.
Proof.
  intros Hmenu Hbtn. unfold Script.menuBtn_click, Script.menu_open.
  rewrite Hmenu, Hbtn. cbn. rewrite !script_contains_toggle. cbn.
  repeat split.
  - rewrite script_contains_toggle.
    destruct (String.eqb_spec "active" t) as [<- | _]; [contradiction | easy].
  - rewrite script_contains_toggle.
    destruct (String.eqb_spec "active" t) as [<- | _]; [contradiction | easy].
  - now rewrite negb_involutive.
Qed.

Lemma script_menu_button_toggles_witness :
  let q := Script.page (Script.menuBtn_click Script.closed_page) in
  Script.menu_open q = negb (Script.menu_open Script.closed_page)
  /\ Script.body_overflow q = (if Script.menu_open q then "hidden" else "")
  /\ (forall t, t <> "active" ->
      option_map (fun c => Script.contains c t) (Script.mobileMenu q)
        = Some (Script.contains ["mobile-menu"] t)
      /\ option_map (fun c => Script.contains c t) (Script.menuBtn q)
         = Some (Script.contains ["menu-btn"] t))
  /\ Script.menu_open (Script.page (Script.menuBtn_click q))
     = Script.menu_open Script.closed_page.
Proof.
  apply (@script_menu_button_toggles Script.closed_page
           ["mobile-menu"] ["menu-btn"]); reflexivity.
Defined.

(** X14. A click on a link of the menu, and a click on an anchor whose target
    exists, each close the menu, whatever state it was in: [active] is gone
    from the menu and the button and the page scroll is unlocked.  The
    anchor click also asks for one smooth scroll, to the target's position
    in the page less the 80 pixels of the header. *)
Theorem script_navigation_closes_menu (p : Script.Page) (menu btn : list string)
    (href : string) (elementPosition pageYOffset : spec_float) :
  Script.mobileMenu p = Some menu ->
  Script.menuBtn p = Some btn ->
  href <> "#" ->
  let closed q :=
    Script.menu_open q = false
    /\ option_map (fun c => Script.contains c "active") (Script.menuBtn q)
       = Some false
    /\ Script.body_overflow q = "" in
  closed (Script.page (Script.menu_link_click p))
  /\ closed
       (Script.page
          (Script.anchor_click href (inr (Some elementPosition)) pageYOffset p))
  /\ Script.scrollTo_calls
       (Script.page
          (Script.anchor_click href (inr (Some elementPosition)) pageYOffset p))
     = (Script.scrollTo_calls p
        ++ [Script.mkScrollToOptions
              (Script.minus (Script.plus elementPosition pageYOffset)
                 (Script.number 80))
              "smooth"])%list.
Proof.
  intros Hmenu Hbtn Hhref. cbv zeta.
  unfold Script.menu_link_click, Script.anchor_click, Script.menu_open.
  destruct (String.eqb_spec href "#") as [-> | _]; [contradiction |].
  rewrite Hmenu, Hbtn.
  cbn [Script.page Script.done Script.mobileMenu Script.menuBtn
       Script.body_overflow Script.scrollTo_calls option_map].
  rewrite !script_contains_remove, !andb_false_r. repeat split.
Qed.

Lemma script_navigation_closes_menu_witness :
  let p :=
    Script.page (Script.menuBtn_click Script.closed_page) in
  let closed q :=
    Script.menu_open q = false
    /\ option_map (fun c => Script.contains c "active") (Script.menuBtn q)
       = Some false
    /\ Script.body_overflow q = "" in
  closed (Script.page (Script.menu_link_click p))
  /\ closed
       (Script.page
          (Script.anchor_click "#contact" (inr (Some (Script.number 900)))
             (Script.number 120) p))
  /\ Script.scrollTo_calls
       (Script.page
          (Script.anchor_click "#contact" (inr (Some (Script.number 900)))
             (Script.number 120) p))
     = (Script.scrollTo_calls p
        ++ [Script.mkScrollToOptions
              (Script.minus
                 (Script.plus (Script.number 900) (Script.number 120))
                 (Script.number 80))
              "smooth"])%list.
Proof.
  apply (@script_navigation_closes_menu
           (Script.page (Script.menuBtn_click Script.closed_page))
           ["mobile-menu"; "active"] ["menu-btn"; "active"] "#contact"
           (Script.number 900) (Script.number 120)).
  - reflexivity.
  - reflexivity.
  - discriminate.
Defined.

Example script_scroll_target :
  Script.minus (Script.plus (Script.number 900) (Script.number 120))
    (Script.number 80)
  = Script.number 940.
Proof. reflexivity. Qed.

Lemma script_dispatch_keeps_elements (p : Script.Page) (ev : Script.DomEvent) :
  let q := Script.page (Script.dispatch p ev) in
  (Script.mobileMenu q = None <-> Script.mobileMenu p = None)
  /\ (Script.navbar q = None <-> Script.navbar p = None).
Proof.
  destruct ev as [| | scrollY | href found pageYOffset]; cbn.
  - unfold Script.menuBtn_click.
    destruct (Script.menuBtn p) eqn:Hb, (Script.mobileMenu p) eqn:Hm; cbn;
      rewrite ?Hm; repeat split; congruence.
  - unfold Script.menu_link_click.
    destruct (Script.menuBtn p) eqn:Hb, (Script.mobileMenu p) eqn:Hm; cbn;
      rewrite ?Hm; repeat split; congruence.
  - unfold Script.window_scroll.
    destruct (Script.navbar p) eqn:Hn; cbn; rewrite ?Hn;
      repeat split; congruence.
  - unfold Script.anchor_click.
    destruct (String.eqb href "#"); cbn; [repeat split; congruence |].
    destruct found as [e | [elementPosition |]]; cbn;
      try (repeat split; congruence).
    destruct (Script.mobileMenu p) eqn:Hm; cbn; rewrite ?Hm;
      repeat split; congruence.
Qed.

Lemma script_dispatch_scrolls (p : Script.Page) (ev : Script.DomEvent) :
  length (Script.scrollTo_calls (Script.page (Script.dispatch p ev)))
  = (length (Script.scrollTo_calls p)
     + match Script.mobileMenu p with
       | Some _ => if Script.leads_somewhere ev then 1 else 0
       | None => 0
       end)%nat.
Proof.
  destruct ev as [| | scrollY | href found pageYOffset]; cbn.
  - unfold Script.menuBtn_click.
    destruct (Script.menuBtn p), (Script.mobileMenu p); cbn; lia.
  - unfold Script.menu_link_click.
    destruct (Script.menuBtn p), (Script.mobileMenu p); cbn; lia.
  - unfold Script.window_scroll.
    destruct (Script.navbar p), (Script.mobileMenu p); cbn; lia.
  - unfold Script.anchor_click.
    destruct found as [e | [elementPosition |]];
      destruct (String.eqb href "#"); cbn;
      destruct (Script.mobileMenu p); cbn;
      rewrite ?length_app; cbn; lia.
Qed.

(** X15. The script asks for a scroll once for every click on an anchor that
    leads somewhere, and at no other time; on a page without the mobile menu
    it never does, because the anchor listener dies on the missing menu
    before it scrolls. *)
Theorem script_scrolls_counted (p : Script.Page) (evs : list Script.DomEvent) :
  length (Script.scrollTo_calls (Script.run p evs))
  = (length (Script.scrollTo_calls p)
     + match Script.mobileMenu p with
       | Some _ => length (filter Script.leads_somewhere evs)
       | None => 0
       end)%nat.
Proof.
  revert p. induction evs as [| ev evs IH]; intros p.
  - cbn. destruct (Script.mobileMenu p); now rewrite Nat.add_0_r.
  - rewrite script_run_cons, IH, script_dispatch_scrolls.
    destruct (script_dispatch_keeps_elements p ev) as [Hmenu _].
    cbv zeta in Hmenu. cbn [filter].
    destruct (Script.mobileMenu p) eqn:Hp.
    + destruct (Script.mobileMenu (Script.page (Script.dispatch p ev))) eqn:Hq.
      * destruct (Script.leads_somewhere ev); cbn [length]; lia.
      * destruct Hmenu as [Hmenu _]. now specialize (Hmenu eq_refl).
    + destruct Hmenu as [_ Hmenu]. rewrite (Hmenu eq_refl). lia.
Qed.

(** X16. Without the header element every scroll event ends in a TypeError and
    changes nothing; with it, the header style after a scroll event depends
    on the scroll position of that event alone, whatever happened before:
    the compact style above 50 pixels, the initial one otherwise. *)
Theorem script_header_follows_scroll (p : Script.Page)
    (evs : list Script.DomEvent) (scrollY : spec_float) :
  Script.navbar
    (Script.run p (evs ++ [Script.WindowScroll scrollY]))
  = match Script.navbar p with
    | Some _ =>
        Some (if Script.gt scrollY (Script.number 50)
              then Script.scrolled_style else Script.top_style)
    | None => None
    end
  /\ (Script.navbar p = None ->
      Script.dispatch p (Script.WindowScroll scrollY)
      = Script.mkHandled p
          (Some "TypeError: Cannot read properties of null (reading 'style')")
          false).
Proof.
  split.
  - assert (Hkeep : Script.navbar (Script.run p evs) = None
                    <-> Script.navbar p = None).
    { revert p. induction evs as [| ev evs IH]; intros p; [reflexivity |].
      rewrite script_run_cons, IH.
      now destruct (script_dispatch_keeps_elements p ev) as [_ H]. }
    rewrite script_run_app.
    change (Script.run (Script.run p evs) [Script.WindowScroll scrollY])
      with (Script.page (Script.window_scroll scrollY (Script.run p evs))).
    unfold Script.window_scroll.
    destruct (Script.navbar (Script.run p evs)) eqn:Hq;
      destruct (Script.navbar p) eqn:Hp;
      cbn [Script.page Script.done Script.navbar]; try reflexivity.
    + destruct Hkeep as [_ Hkeep]. now specialize (Hkeep eq_refl).
    + destruct Hkeep as [Hkeep _]. now specialize (Hkeep eq_refl).
    + exact Hq.
  - intros Hn. cbn. unfold Script.window_scroll. now rewrite Hn.
Qed.

Example script_header_threshold :
  Script.gt (Script.number 50) (Script.number 50) = false
  /\ Script.gt (Script.number 51) (Script.number 50) = true
  /\ Script.gt S754_nan (Script.number 50) = false.
Proof. repeat split. Qed.
